(** * SlackEventHandler: the inbound event classifier of the Slack bridge

    A shallow embedding of [src/SlackEventHandler.ts].  The handler is
    effectful JavaScript: it calls back into the HTTP layer, reads and
    writes [BridgedRoom] objects owned by [Main], awaits the datastore, the
    mention resolver and the rooms' forwarding methods, and reports to the
    logger and the metrics.  The embedding therefore is monadic: a
    computation takes the store of shared objects and yields a result (a
    value or a thrown JavaScript value), the new store and the calls it
    made, in the order it made them.

    [await] is sequential composition; a rejected promise is a throw at the
    [await].  What [Main], [BridgedRoom], the datastore and
    [BaseSlackHandler] answer is not part of this file of the repository and
    is a parameter, the record [World]: each of their calls may return or
    throw, and so may the response callback.  The logger and the metrics
    ([startTimer], the function it returns, [incCounter]) only record: their
    calls appear among the calls made and always return.  A call that is
    answered by the world is answered by its arguments; it does not write
    the store. *)

From Stdlib Require Import String List ZArith Bool Lia.
Import ListNotations.
Local Open Scope string_scope.
Local Open Scope list_scope.

(** ** JavaScript values *)

(** A property that may be [undefined] is an [option].  Truthiness of a
    [string | undefined]: [undefined] and the empty string are falsy. *)
Definition truthy (o : option string) : bool :=
  match o with
  | Some s => negb (s =? "")
  | None => false
  end.

(** [a || b] on [string | undefined]. *)
Definition js_or (a b : option string) : option string :=
  if truthy a then a else b.

(** [a === b] on [string | undefined]. *)
Definition strict_eq (a b : option string) : bool :=
  match a, b with
  | Some x, Some y => x =? y
  | None, None => true
  | _, _ => false
  end.

(** A template literal prints an [undefined] as the word. *)
Definition template (o : option string) : string :=
  match o with
  | Some s => s
  | None => "undefined"
  end.

(** What can be thrown, and what [err] in [handle] can hold: [null], a
    string, an [Error] object with its message, or [undefined]. *)
Inductive JsVal : Type :=
| VNull
| VUndefined
| VStr (s : string)
| VError (message : string).

(** [err === "..."]: strict equality with a string literal holds for a
    string of the same characters only, never for an [Error] object. *)
Definition is_str (v : JsVal) (lit : string) : bool :=
  match v with
  | VStr s => s =? lit
  | _ => false
  end.

(** [err === null]. *)
Definition is_null (v : JsVal) : bool :=
  match v with
  | VNull => true
  | _ => false
  end.

(** ** Events *)

Definition RoomRef := nat.
Definition MsgRef := nat.
Definition Buffer := list Byte.byte.

(** [WebClient] and [ISlackFile] are only passed through. *)
Definition WebClient := string.
Definition ISlackFile := string.

(** [ISlackMessage], declared in BaseSlackHandler.ts, which is not among
    the sources: the fields this file reads of a nested message (the edited
    message, the previous message, a reaction's item). *)
Record ISlackMessage : Type := mkMessage {
  msg_channel : option string;
  msg_user : option string;
  msg_bot_id : option string;
  msg_text : option string
}.

Record Attachment : Type := mkAttachment {
  fallback : option string
}.

Record Comment : Type := mkComment {
  comment_user : option string
}.

(** The event as it arrives: one JavaScript object, read under several
    interfaces ([ISlackMessageEvent], [ISlackEventReaction], ...), the casts
    of [handle] being unchecked.  Nested objects are embedded by value except
    [previous_message], the one nested object the handler writes through,
    which is a reference into the store. *)
Record SlackEvent : Type := mkEvent {
  ev_type : string;
  ev_channel : option string;
  ev_user : option string;
  ev_bot_id : option string;
  ev_subtype : option string;
  ev_text : option string;
  ev_attachments : option (list Attachment);
  ev_comment : option Comment;
  ev_message : option ISlackMessage;
  ev_previous_message : option MsgRef;
  ev_deleted_ts : option string;
  ev_file : option ISlackFile;
  ev_item : option ISlackMessage;
  ev_id : option string;
  ev_name : option string;
  ev_domain : option string
}.

(** The object built by [Object.assign({}, event, {...})]: a fresh object
    with the event's own properties copied (shallowly: a nested object is
    shared, so [ev_previous_message] is the same reference) and four more.
    The raw event passed where a message is expected has none of the four. *)
Record Msg : Type := mkMsg {
  base : SlackEvent;
  channel_id : option string;
  team_domain : option string;
  team_id : option string;
  user_id : option string
}.

Definition Object_assign (event : SlackEvent)
    (channel dom : option string) (team : string) (user : option string) : Msg :=
  {| base := event; channel_id := channel; team_domain := dom;
     team_id := Some team; user_id := user |}.

Definition raw (event : SlackEvent) : Msg :=
  {| base := event; channel_id := None; team_domain := None;
     team_id := None; user_id := None |}.

(** [msg.text = t], [msg.file = f], [msg.user_id = u] on the copy. *)
Definition set_text (m : Msg) (t : option string) : Msg :=
  let e := base m in
  {| base := {| ev_type := ev_type e; ev_channel := ev_channel e;
                ev_user := ev_user e; ev_bot_id := ev_bot_id e;
                ev_subtype := ev_subtype e; ev_text := t;
                ev_attachments := ev_attachments e;
                ev_comment := ev_comment e; ev_message := ev_message e;
                ev_previous_message := ev_previous_message e;
                ev_deleted_ts := ev_deleted_ts e; ev_file := ev_file e;
                ev_item := ev_item e; ev_id := ev_id e; ev_name := ev_name e;
                ev_domain := ev_domain e |};
     channel_id := channel_id m; team_domain := team_domain m;
     team_id := team_id m; user_id := user_id m |}.

Definition set_file (m : Msg) (f : option ISlackFile) : Msg :=
  let e := base m in
  {| base := {| ev_type := ev_type e; ev_channel := ev_channel e;
                ev_user := ev_user e; ev_bot_id := ev_bot_id e;
                ev_subtype := ev_subtype e; ev_text := ev_text e;
                ev_attachments := ev_attachments e;
                ev_comment := ev_comment e; ev_message := ev_message e;
                ev_previous_message := ev_previous_message e;
                ev_deleted_ts := ev_deleted_ts e; ev_file := f;
                ev_item := ev_item e; ev_id := ev_id e; ev_name := ev_name e;
                ev_domain := ev_domain e |};
     channel_id := channel_id m; team_domain := team_domain m;
     team_id := team_id m; user_id := user_id m |}.

Definition set_user_id (m : Msg) (u : option string) : Msg :=
  {| base := base m; channel_id := channel_id m;
     team_domain := team_domain m; team_id := team_id m; user_id := u |}.

(** [msg.subtype === lit]. *)
Definition subtype_is (m : Msg) (lit : string) : bool :=
  strict_eq (ev_subtype (base m)) (Some lit).

(** ** Rooms and the store *)

(** [BridgedRoom]: the properties the handler reads and writes. *)
Record BridgedRoom : Type := mkRoom {
  SlackChannelId : option string;
  SlackChannelName : option string;
  SlackTeamId : option string;
  SlackTeamDomain : option string;
  SlackBotId : option string;
  SlackClient : option WebClient;
  isDirty : bool
}.

(** A row of the datastore's event table. *)
Record EventEntry : Type := mkEntry {
  roomId : string;
  eventId : string
}.

(** The shared objects: rooms are owned by [Main] and handed out by
    reference; previous-message snapshots hang off the events. *)
Record Store : Type := mkStore {
  st_rooms : RoomRef -> BridgedRoom;
  st_msgs : MsgRef -> ISlackMessage
}.

Definition upd {A : Type} (f : nat -> A) (k : nat) (v : A) : nat -> A :=
  fun k' => if Nat.eqb k' k then v else f k'.

(** The store once [p.text = t] ran on the stored message [p]. *)
Definition write_text (p : MsgRef) (t : option string) (s : Store) : Store :=
  let old := st_msgs s p in
  {| st_rooms := st_rooms s;
     st_msgs := upd (st_msgs s) p
       {| msg_channel := msg_channel old; msg_user := msg_user old;
          msg_bot_id := msg_bot_id old; msg_text := t |} |}.

(** ** Calls *)

Inductive LogLevel : Type := LDebug | LWarn | LError.

(** One entry per call that leaves the handler.  A log entry keeps the
    message and, where the source passes the caught value, that value. *)
Inductive Effect : Type :=
| ELog (lvl : LogLevel) (text : string) (detail : option JsVal)
| EStartTimer (name : string)
| EEndTimer (outcome : string)
| EIncCounter (name : string) (side : string)
| ERespond (status : Z) (body : option string)
| EGetRoomBySlackChannelId (channel : option string)
| EGetRoomsBySlackTeamId (team : string)
| EOnSlackMessage (room : RoomRef) (m : Msg) (team : string)
                  (content : option Buffer)
| EOnSlackTopic (room : RoomRef) (m : Msg) (team : string)
| EOnSlackReactionAdded (room : RoomRef) (m : Msg) (team : string)
| EOnSlackTyping (room : RoomRef) (m : Msg) (team : string)
| EDoChannelUserReplacements (m : Msg) (text : option string)
                             (client : WebClient)
| EEnablePublicSharing (f : ISlackFile) (client : WebClient)
| EFetchFileContent (f : ISlackFile)
| EGetEventBySlackId (channel ts : option string)
| ERedactEvent (room event : string)
| EUpsertRoom (room : RoomRef).

Definition Trace := list Effect.

Inductive Result (A : Type) : Type :=
| Ok (a : A)
| Throw (ex : JsVal).
Arguments Ok {A} a.
Arguments Throw {A} ex.

(** [EventHandlerCallback], as [handle] calls it: with a status and a
    body. *)
Definition EventHandlerCallback := Z -> option string -> Result unit.

(** What the rest of the bridge answers.  Every call may fail (throw, or
    return a promise that rejects).  [dirtyAfterSet] is [BridgedRoom]'s own
    bookkeeping: whether the room reports [isDirty] once a property of it was
    assigned, given the room before and after the assignment. *)
Record World : Type := mkWorld {
  w_getRoomBySlackChannelId : option string -> Result (option RoomRef);
  w_getRoomsBySlackTeamId : string -> Result (list RoomRef);
  w_onSlackMessage : RoomRef -> Msg -> string -> option Buffer -> Result unit;
  w_onSlackTopic : RoomRef -> Msg -> string -> Result unit;
  w_onSlackReactionAdded : RoomRef -> Msg -> string -> Result unit;
  w_onSlackTyping : RoomRef -> Msg -> string -> Result unit;
  w_doChannelUserReplacements :
    Msg -> option string -> WebClient -> Result (option string);
  w_enablePublicSharing : ISlackFile -> WebClient -> Result ISlackFile;
  w_fetchFileContent : ISlackFile -> Result (option Buffer);
  w_getEventBySlackId :
    option string -> option string -> Result (option EventEntry);
  w_redactEvent : string -> string -> Result unit;
  w_upsertRoom : RoomRef -> BridgedRoom -> Result unit;
  w_dirtyAfterSet : BridgedRoom -> BridgedRoom -> bool
}.

(** ** The monad *)

Definition M (A : Type) : Type := Store -> Result A * Store * Trace.

Definition ret {A : Type} (a : A) : M A := fun s => (Ok a, s, []).

Definition throw {A : Type} (ex : JsVal) : M A := fun s => (Throw ex, s, []).

Definition bind {A B : Type} (m : M A) (k : A -> M B) : M B :=
  fun s =>
    match m s with
    | (Ok a, s1, t1) =>
        match k a s1 with
        | (r, s2, t2) => (r, s2, t1 ++ t2)
        end
    | (Throw ex, s1, t1) => (Throw ex, s1, t1)
    end.

(** [try { m } catch (ex) { h ex }]. *)
Definition try_catch {A : Type} (m : M A) (h : JsVal -> M A) : M A :=
  fun s =>
    match m s with
    | (Ok a, s1, t1) => (Ok a, s1, t1)
    | (Throw ex, s1, t1) =>
        match h ex s1 with
        | (r, s2, t2) => (r, s2, t1 ++ t2)
        end
    end.

(** [try { x = m } catch { }]: the value when there is one. *)
Definition attempt {A : Type} (m : M A) : M (option A) :=
  try_catch (bind m (fun a => ret (Some a))) (fun _ => ret None).

(** A call that cannot fail, and a call answered by the world. *)
Definition emit (e : Effect) : M unit := fun s => (Ok tt, s, [e]).

Definition call {A : Type} (e : Effect) (r : Result A) : M A :=
  fun s => (r, s, [e]).

Definition get_room (room : RoomRef) : M BridgedRoom :=
  fun s => (Ok (st_rooms s room), s, []).

Definition get_msg (p : MsgRef) : M ISlackMessage :=
  fun s => (Ok (st_msgs s p), s, []).

Declare Scope js_scope.
Delimit Scope js_scope with js.
Notation "x <- m ;; k" := (bind m (fun x => k))
  (at level 61, m at next level, right associativity) : js_scope.
Notation "m ;; k" := (bind m (fun _ => k))
  (at level 61, right associativity) : js_scope.
Local Open Scope js_scope.

(** [Promise.all(l.map(async x => f x))].  [map] runs every callback, each
    up to its first suspension, in the order of the list, whether or not an
    earlier one failed; the awaited whole fails when one of them does.  The
    embedding lets each callback finish before the next starts, and reports
    the failure that comes first in the list. *)
Fixpoint promise_all_map {A : Type} (f : A -> M unit) (l : list A) : M unit :=
  match l with
  | [] => ret tt
  | x :: xs =>
      fun s =>
        match f x s with
        | (r1, s1, t1) =>
            match promise_all_map f xs s1 with
            | (r2, s2, t2) =>
                (match r1 with
                 | Throw ex => Throw ex
                 | Ok _ => r2
                 end, s2, t1 ++ t2)
            end
        end
  end.

(** ** The handler *)

(** Where [handleMessageEvent] stands after a step: it has returned, or it
    goes on with the message as it is by then. *)
Inductive Step : Type :=
| Done
| Next (m : Msg).

Definition HTTP_OK : Z := 200.

(** The types of events [handle] has a handler for. *)
Definition SUPPORTED_EVENTS : list string :=
  ["message"; "reaction_added"; "reaction_removed"; "team_domain_change";
   "channel_rename"; "user_typing"].

Section Handler.

Variable w : World.

(** *** The collaborators, as calls *)

(** Modelled from the spec: the logger of matrix-appservice-bridge and the
    timer and counter of [Main] (Main.ts is not among the sources), the
    spec's Observability Sink, are primitives that record what they are
    called with and return. *)

Definition log (lvl : LogLevel) (text : string) (detail : option JsVal)
  : M unit :=
  emit (ELog lvl text detail).

Definition startTimer (name : string) : M unit := emit (EStartTimer name).

(** [endTimer({outcome})], the function [startTimer] returned. *)
Definition endTimer (outcome : string) : M unit := emit (EEndTimer outcome).

Definition incCounter (name side : string) : M unit :=
  emit (EIncCounter name side).

Definition respond (response : EventHandlerCallback) (status : Z)
    (body : option string) : M unit :=
  call (ERespond status body) (response status body).

Definition getRoomBySlackChannelId (channel : option string)
  : M (option RoomRef) :=
  call (EGetRoomBySlackChannelId channel)
       (w_getRoomBySlackChannelId w channel).

Definition getRoomsBySlackTeamId (team : string) : M (list RoomRef) :=
  call (EGetRoomsBySlackTeamId team) (w_getRoomsBySlackTeamId w team).

Definition onSlackMessage (room : RoomRef) (m : Msg) (team : string)
    (content : option Buffer) : M unit :=
  call (EOnSlackMessage room m team content)
       (w_onSlackMessage w room m team content).

Definition onSlackTopic (room : RoomRef) (m : Msg) (team : string)
  : M unit :=
  call (EOnSlackTopic room m team) (w_onSlackTopic w room m team).

Definition onSlackReactionAdded (room : RoomRef) (m : Msg) (team : string)
  : M unit :=
  call (EOnSlackReactionAdded room m team)
       (w_onSlackReactionAdded w room m team).

Definition onSlackTyping (room : RoomRef) (m : Msg) (team : string)
  : M unit :=
  call (EOnSlackTyping room m team) (w_onSlackTyping w room m team).

Definition doChannelUserReplacements (m : Msg) (text : option string)
    (client : WebClient) : M (option string) :=
  call (EDoChannelUserReplacements m text client)
       (w_doChannelUserReplacements w m text client).

Definition enablePublicSharing (f : ISlackFile) (client : WebClient)
  : M ISlackFile :=
  call (EEnablePublicSharing f client) (w_enablePublicSharing w f client).

Definition fetchFileContent (f : ISlackFile) : M (option Buffer) :=
  call (EFetchFileContent f) (w_fetchFileContent w f).

Definition getEventBySlackId (channel ts : option string)
  : M (option EventEntry) :=
  call (EGetEventBySlackId channel ts) (w_getEventBySlackId w channel ts).

(** [this.main.botIntent.getClient().redactEvent(roomId, eventId)]. *)
Definition redactEvent (room event : string) : M unit :=
  call (ERedactEvent room event) (w_redactEvent w room event).

Definition upsertRoom (room : RoomRef) : M unit :=
  fun s => (w_upsertRoom w room (st_rooms s room), s, [EUpsertRoom room]).

(** Modelled from the spec: [BridgedRoom] (BridgedRoom.ts is not among the
    sources) has writable properties and a readable [isDirty].  On
    [room.SlackTeamDomain = v] and [room.SlackChannelName = v] the property
    takes the value, and what [isDirty] answers from then on is the room's
    own account, given by the world. *)
Definition assigned (f : BridgedRoom -> BridgedRoom) (old : BridgedRoom)
  : BridgedRoom :=
  let new := f old in
  {| SlackChannelId := SlackChannelId new;
     SlackChannelName := SlackChannelName new;
     SlackTeamId := SlackTeamId new;
     SlackTeamDomain := SlackTeamDomain new;
     SlackBotId := SlackBotId new;
     SlackClient := SlackClient new;
     isDirty := w_dirtyAfterSet w old new |}.

Definition assign (room : RoomRef) (f : BridgedRoom -> BridgedRoom)
  : M unit :=
  fun s =>
    (Ok tt, {| st_rooms := upd (st_rooms s) room
                             (assigned f (st_rooms s room));
               st_msgs := st_msgs s |}, []).

Definition set_SlackTeamDomain (room : RoomRef) (v : option string)
  : M unit :=
  assign room (fun r =>
    {| SlackChannelId := SlackChannelId r;
       SlackChannelName := SlackChannelName r;
       SlackTeamId := SlackTeamId r;
       SlackTeamDomain := v;
       SlackBotId := SlackBotId r;
       SlackClient := SlackClient r;
       isDirty := isDirty r |}).

Definition set_SlackChannelName (room : RoomRef) (v : option string)
  : M unit :=
  assign room (fun r =>
    {| SlackChannelId := SlackChannelId r;
       SlackChannelName := v;
       SlackTeamId := SlackTeamId r;
       SlackTeamDomain := SlackTeamDomain r;
       SlackBotId := SlackBotId r;
       SlackClient := SlackClient r;
       isDirty := isDirty r |}).

(** [p.text = t] on the stored previous message [p]. *)
Definition set_msg_text (p : MsgRef) (t : option string) : M unit :=
  fun s => (Ok tt, write_text p t s, []).

(** *** [handleMessageEvent], lines 137 to 247 *)

(** Lines 177 to 187: the attachments.  The loop returns in its first
    round; below it the list was empty.  The answer is whether the handler
    has returned: where it has not, [msg] is as it was. *)
Definition attachments_step (room : RoomRef) (client : WebClient)
    (msg : Msg) (teamId : string) : M bool :=
  match ev_attachments (base msg) with
  | None => ret false
  | Some (attachment :: _) =>
      let msg := set_text msg (fallback attachment) in
      t <- doChannelUserReplacements msg (ev_text (base msg)) client ;;
      let msg := set_text msg t in
      onSlackMessage room msg teamId None ;;
      ret true
  | Some [] =>
      if strict_eq (ev_text (base msg)) (Some "")
      then ret true
      else ret false
  end.

(** Lines 193 to 208: [message_changed] with both messages present. *)
Definition message_changed_step (room : RoomRef) (client : WebClient)
    (msg : Msg) (message : ISlackMessage) (p : MsgRef) : M Step :=
  let msg := set_user_id msg (msg_user message) in
  let msg := set_text msg (msg_text message) in
  previous <- get_msg p ;;
  t <- doChannelUserReplacements msg (msg_text previous) client ;;
  set_msg_text p t ;;
  match msg_bot_id message with
  | Some b =>
      rm <- get_room room ;;
      if strict_eq (Some b) (SlackBotId rm)
      then ret Done
      else ret (Next (set_user_id msg (ev_bot_id (base msg))))
  | None => ret (Next msg)
  end.

(** Lines 209 to 214: [message_deleted]. *)
Definition message_deleted_step (msg : Msg) : M Step :=
  originalEvent <- getEventBySlackId (ev_channel (base msg))
                                     (ev_deleted_ts (base msg)) ;;
  match originalEvent with
  | Some e => redactEvent (roomId e) (eventId e) ;; ret Done
  | None => ret (Next msg)
  end.

(** Lines 191 to 219: the chain on the subtype, first match wins. *)
Definition subtype_step (room : RoomRef) (client : WebClient) (msg : Msg)
  : M Step :=
  match subtype_is msg "file_comment", ev_comment (base msg) with
  | true, Some comment => ret (Next (set_user_id msg (comment_user comment)))
  | _, _ =>
      match subtype_is msg "message_changed",
            ev_message (base msg), ev_previous_message (base msg) with
      | true, Some message, Some p =>
          message_changed_step room client msg message p
      | _, _, _ =>
          if subtype_is msg "message_deleted" then message_deleted_step msg
          else if subtype_is msg "message_replied" then ret Done
          else ret (Next msg)
      end
  end.

(** Lines 231 to 243: the shared file.  A failure leaves what was
    assigned before it and is dropped. *)
Definition file_share_step (room : RoomRef) (msg : Msg)
  : M (Msg * option Buffer) :=
  match subtype_is msg "file_share", ev_file (base msg) with
  | true, Some f =>
      rm <- get_room room ;;
      match SlackClient rm with
      | Some client =>
          shared <- attempt (enablePublicSharing f client) ;;
          match shared with
          | Some f' =>
              let msg := set_file msg (Some f') in
              content <- attempt (fetchFileContent f') ;;
              match content with
              | Some c => ret (msg, c)
              | None => ret (msg, None)
              end
          | None => ret (msg, None)
          end
      | None => ret (msg, None)
      end
  | _, _ => ret (msg, None)
  end.

(** Lines 221 to 247. *)
Definition forward_step (room : RoomRef) (event : SlackEvent) (msg : Msg)
    (teamId : string) : M unit :=
  rm <- get_room room ;;
  match SlackClient rm with
  | None =>
      log LWarn ("no slack token for " ++ template (SlackTeamDomain rm))%string
          None ;;
      onSlackMessage room (raw event) teamId None
  | Some client =>
      fc <- file_share_step room msg ;;
      let msg := fst fc in
      t <- doChannelUserReplacements msg (ev_text (base msg)) client ;;
      let msg := set_text msg t in
      onSlackMessage room msg teamId (snd fc)
  end.

Definition handleMessageEvent (event : SlackEvent) (teamId : string)
  : M unit :=
  found <- getRoomBySlackChannelId (ev_channel event) ;;
  match found with
  | None => throw (VError "unknown_channel")
  | Some room =>
      rm <- get_room room ;;
      if strict_eq (ev_subtype event) (Some "bot_message")
         && (negb (truthy (SlackBotId rm))
             || strict_eq (ev_bot_id event) (SlackBotId rm))
      then ret tt
      else
        incCounter "received_messages" "remote" ;;
        (* line 149 reads room.AccessToken into a constant never used *)
        rm <- get_room room ;;
        let msg := Object_assign event (ev_channel event)
                     (js_or (SlackTeamDomain rm) (SlackTeamId rm)) teamId
                     (js_or (ev_user event) (ev_bot_id event)) in
        match SlackClient rm with
        | None =>
            log LWarn
                ("no slack token for " ++ template (SlackTeamDomain rm))%string
                None ;;
            onSlackMessage room msg teamId None
        | Some client =>
            if subtype_is msg "channel_topic" || subtype_is msg "group_topic"
            then onSlackTopic room msg teamId
            else
              returned <- attachments_step room client msg teamId ;;
              if returned : bool then ret tt
              else
                b <- subtype_step room client msg ;;
                match b with
                | Done => ret tt
                | Next msg => forward_step room event msg teamId
                end
        end
  end.

(** *** The other handlers, lines 249 to 303 *)

Definition handleReaction (event : SlackEvent) (teamId : string) : M unit :=
  match ev_item event with
  | None =>
      throw (VError "Cannot read property 'channel' of undefined")
  | Some item =>
      let channel := msg_channel item in
      found <- getRoomBySlackChannelId channel ;;
      match found with
      | None => throw (VError "unknown_channel")
      | Some room =>
          rm <- get_room room ;;
          let msg := Object_assign event channel
                       (js_or (SlackTeamDomain rm) (SlackTeamId rm)) teamId
                       (js_or (ev_user event) (ev_bot_id event)) in
          if ev_type event =? "reaction_added"
          then onSlackReactionAdded room msg teamId
          else ret tt
      end
  end.

Definition handleDomainChangeEvent (event : SlackEvent) (teamId : string)
  : M unit :=
  rooms <- getRoomsBySlackTeamId teamId ;;
  promise_all_map
    (fun room =>
       set_SlackTeamDomain room (ev_domain event) ;;
       rm <- get_room room ;;
       if isDirty rm then upsertRoom room else ret tt)
    rooms.

Definition handleChannelRenameEvent (event : SlackEvent) : M unit :=
  found <- getRoomBySlackChannelId (ev_id event) ;;
  match found with
  | None => throw (VError "unknown_channel")
  | Some room =>
      rm <- get_room room ;;
      let channelName :=
        (template (SlackTeamDomain rm) ++ ".#" ++ template (ev_name event))%string in
      set_SlackChannelName room (Some channelName) ;;
      rm <- get_room room ;;
      if isDirty rm then upsertRoom room else ret tt
  end.

Definition handleTyping (event : SlackEvent) (teamId : string) : M unit :=
  found <- getRoomBySlackChannelId (ev_channel event) ;;
  match found with
  | None => throw (VError "unknown_channel")
  | Some room =>
      rm <- get_room room ;;
      let typingEvent := Object_assign event (ev_channel event)
                           (js_or (SlackTeamDomain rm) (SlackTeamId rm))
                           teamId
                           (js_or (ev_user event) (ev_bot_id event)) in
      onSlackTyping room typingEvent teamId
  end.

(** *** [handle], lines 70 to 128 *)

(** Lines 81 to 102: the switch; its value is what [err] holds when no
    case throws. *)
Definition dispatch (event : SlackEvent) (teamId : string) : M JsVal :=
  if ev_type event =? "message" then
    handleMessageEvent event teamId ;; ret VNull
  else if (ev_type event =? "reaction_added")
          || (ev_type event =? "reaction_removed") then
    handleReaction event teamId ;; ret VNull
  else if ev_type event =? "channel_rename" then
    handleChannelRenameEvent event ;; ret VNull
  else if ev_type event =? "team_domain_change" then
    handleDomainChangeEvent event teamId ;; ret VNull
  else if ev_type event =? "user_typing" then
    handleTyping event teamId ;; ret VNull
  else ret (VStr "unknown_event").

(** Lines 108 to 124: what is recorded for [err]. *)
Definition record_outcome (event : SlackEvent) (teamId : string)
    (err : JsVal) : M unit :=
  if is_str err "unknown_channel" then
    let chanIdMix :=
      (template (ev_channel event) ++ " (" ++ teamId ++ ")")%string in
    log LWarn
        ("Ignoring message from unrecognised slack channel id: "
           ++ chanIdMix)%string None ;;
    incCounter "received_messages" "remote" ;;
    endTimer "dropped"
  else
    (if is_str err "unknown_event" then endTimer "dropped"
     else if negb (is_null err) then endTimer "fail"
     else ret tt) ;;
    if is_null err then endTimer "success"
    else log LError "Failed to handle slack event:" (Some err).

Definition handle (event : SlackEvent) (teamId : string)
    (response : EventHandlerCallback) : M unit :=
  try_catch
    (log LDebug "Received slack event:" None ;;
     startTimer "remote_request_seconds" ;;
     respond response HTTP_OK (Some "OK") ;;
     err <- try_catch (dispatch event teamId)
              (fun ex => log LWarn "Didn't handle event:" (Some ex) ;;
                         ret ex) ;;
     record_outcome event teamId err)
    (fun e => log LError "SlackEventHandler.handle failed:" (Some e)).

End Handler.

Arguments attachments_step : simpl never.
Arguments subtype_step : simpl never.
Arguments message_changed_step : simpl never.
Arguments message_deleted_step : simpl never.
Arguments file_share_step : simpl never.
Arguments forward_step : simpl never.
Arguments handleMessageEvent : simpl never.
Arguments handleReaction : simpl never.
Arguments handleDomainChangeEvent : simpl never.
Arguments handleChannelRenameEvent : simpl never.
Arguments handleTyping : simpl never.
Arguments dispatch : simpl never.
Arguments record_outcome : simpl never.
Arguments handle : simpl never.

(** ** Reading a run *)

Definition result {A : Type} (x : Result A * Store * Trace) : Result A :=
  fst (fst x).

Definition store_of {A : Type} (x : Result A * Store * Trace) : Store :=
  snd (fst x).

Definition trace_of {A : Type} (x : Result A * Store * Trace) : Trace :=
  snd x.

Definition is_respond (e : Effect) : bool :=
  match e with
  | ERespond _ _ => true
  | _ => false
  end.

(** [room.onSlackMessage], the generic forward call. *)
Definition is_forward (e : Effect) : bool :=
  match e with
  | EOnSlackMessage _ _ _ _ => true
  | _ => false
  end.

Definition is_redact (e : Effect) : bool :=
  match e with
  | ERedactEvent _ _ => true
  | _ => false
  end.

Definition forwards (t : Trace) : Trace := filter is_forward t.

Definition redactions (t : Trace) : Trace := filter is_redact t.

(** The rooms [upsertRoom] was called with, in the order of the calls. *)
Definition upserted (t : Trace) : list RoomRef :=
  flat_map (fun e => match e with
                     | EUpsertRoom room => [room]
                     | _ => []
                     end) t.

(** Two stored messages that differ at most in their text. *)
Definition same_but_text (a b : ISlackMessage) : Prop :=
  msg_channel a = msg_channel b /\ msg_user a = msg_user b
  /\ msg_bot_id a = msg_bot_id b.

(** The event gets past the attachments of lines 177 to 187: it has none,
    or an empty list of them and a text that is not the empty string. *)
Definition past_attachments (event : SlackEvent) : bool :=
  match ev_attachments event with
  | None => true
  | Some [] => negb (strict_eq (ev_text event) (Some ""))
  | Some (_ :: _) => false
  end.

(** ** Parts of the handler, named for the statements *)

(** What [handle] does once the response went out: lines 79 to 124. *)
Definition after_ack (w : World) (event : SlackEvent) (teamId : string)
  : M unit :=
  err <- try_catch (dispatch w event teamId)
           (fun ex => log LWarn "Didn't handle event:" (Some ex) ;; ret ex) ;;
  record_outcome event teamId err.

(** The three calls every run starts with. *)
Definition ack_prefix : Trace :=
  [ELog LDebug "Received slack event:" None;
   EStartTimer "remote_request_seconds";
   ERespond HTTP_OK (Some "OK")].

(** The events on which line 196 can run: a message event with subtype
    [message_changed] carrying the edited message and, at [p], the previous
    one. *)
Definition writes_previous (event : SlackEvent) (p : MsgRef) : Prop :=
  ev_type event = "message"
  /\ ev_subtype event = Some "message_changed"
  /\ ev_message event <> None
  /\ ev_previous_message event = Some p.

Definition not_respond (e : Effect) : Prop := is_respond e = false.

(** The channel a handler asks the registry for: the event's own for a
    message and a typing notice, the one of the item for a reaction, the
    [id] for a rename; the other events look up no channel. *)
Definition relevant_channel (event : SlackEvent) : option (option string) :=
  if ev_type event =? "message" then Some (ev_channel event)
  else if (ev_type event =? "reaction_added")
          || (ev_type event =? "reaction_removed") then
    option_map msg_channel (ev_item event)
  else if ev_type event =? "channel_rename" then Some (ev_id event)
  else if ev_type event =? "team_domain_change" then None
  else if ev_type event =? "user_typing" then Some (ev_channel event)
  else None.

(** The test of lines 141 and 142: the message is the bridge's own. *)
Definition is_echo (event : SlackEvent) (rm : BridgedRoom) : bool :=
  strict_eq (ev_subtype event) (Some "bot_message")
  && (negb (truthy (SlackBotId rm))
      || strict_eq (ev_bot_id event) (SlackBotId rm)).

(** The test of line 172. *)
Definition is_topic (event : SlackEvent) : bool :=
  strict_eq (ev_subtype event) (Some "channel_topic")
  || strict_eq (ev_subtype event) (Some "group_topic").

(** The copy of lines 151 to 156. *)
Definition message_copy (event : SlackEvent) (rm : BridgedRoom)
    (teamId : string) : Msg :=
  Object_assign event (ev_channel event)
    (js_or (SlackTeamDomain rm) (SlackTeamId rm)) teamId
    (js_or (ev_user event) (ev_bot_id event)).

(** The calls of a message that is counted. *)
Definition counted (event : SlackEvent) : Trace :=
  [EGetRoomBySlackChannelId (ev_channel event);
   EIncCounter "received_messages" "remote"].

(** What lines 274 to 277 do to one room. *)
Definition domain_change_one (w : World) (event : SlackEvent)
    (room : RoomRef) : M unit :=
  set_SlackTeamDomain w room (ev_domain event) ;;
  rm <- get_room room ;;
  if isDirty rm then upsertRoom w room else ret tt.

(** The room once [SlackTeamDomain] was assigned. *)
Definition with_domain (w : World) (d : option string) (old : BridgedRoom)
  : BridgedRoom :=
  assigned w (fun r =>
    {| SlackChannelId := SlackChannelId r;
       SlackChannelName := SlackChannelName r;
       SlackTeamId := SlackTeamId r;
       SlackTeamDomain := d;
       SlackBotId := SlackBotId r;
       SlackClient := SlackClient r;
       isDirty := isDirty r |}) old.

(** ** A small bridge to run the handler on *)

Module Examples.

Definition ok_response : EventHandlerCallback := fun _ _ => Ok tt.

(** Channel C1 of team T1, bridged with a client; the bridge's bot there
    is B1. *)
Definition room_acme : BridgedRoom :=
  {| SlackChannelId := Some "C1"; SlackChannelName := Some "acme.#general";
     SlackTeamId := Some "T1"; SlackTeamDomain := Some "acme";
     SlackBotId := Some "B1"; SlackClient := Some "client";
     isDirty := false |}.

(** The same room after the team took the domain newacme. *)
Definition room_renamed : BridgedRoom :=
  {| SlackChannelId := Some "C3"; SlackChannelName := Some "newacme.#dev";
     SlackTeamId := Some "T1"; SlackTeamDomain := Some "newacme";
     SlackBotId := Some "B1"; SlackClient := Some "client";
     isDirty := false |}.

Definition snapshot : ISlackMessage :=
  {| msg_channel := Some "C1"; msg_user := Some "U1"; msg_bot_id := None;
     msg_text := Some "hello @bob" |}.

(** Rooms 0 and 1 still carry the old domain, room 2 the new one. *)
Definition store0 : Store :=
  {| st_rooms := fun r => if Nat.eqb r 2 then room_renamed else room_acme;
     st_msgs := fun _ => snapshot |}.

(** The mention resolver knows bob. *)
Definition resolve (t : option string) : option string :=
  match t with
  | Some s => if s =? "hello @bob" then Some "hello Bob" else Some s
  | None => None
  end.

(** A room is dirty once it was, or once an assignment changed it. *)
Definition dirty (old new : BridgedRoom) : bool :=
  isDirty old
  || negb (strict_eq (SlackTeamDomain old) (SlackTeamDomain new))
  || negb (strict_eq (SlackChannelName old) (SlackChannelName new)).

(** Every call succeeds; only C1 is bridged (room 0); team T1 has rooms 0,
    1 and 2; the datastore knows the message with timestamp 100. *)
Definition world0 : World :=
  {| w_getRoomBySlackChannelId := fun ch =>
       Ok (if strict_eq ch (Some "C1") then Some 0 else None);
     w_getRoomsBySlackTeamId := fun t =>
       Ok (if t =? "T1" then [0; 1; 2] else []);
     w_onSlackMessage := fun _ _ _ _ => Ok tt;
     w_onSlackTopic := fun _ _ _ => Ok tt;
     w_onSlackReactionAdded := fun _ _ _ => Ok tt;
     w_onSlackTyping := fun _ _ _ => Ok tt;
     w_doChannelUserReplacements := fun _ t _ => Ok (resolve t);
     w_enablePublicSharing := fun f _ => Ok f;
     w_fetchFileContent := fun _ => Ok None;
     w_getEventBySlackId := fun _ ts =>
       Ok (if strict_eq ts (Some "100")
           then Some {| roomId := "!room:hs"; eventId := "$event" |}
           else None);
     w_redactEvent := fun _ _ => Ok tt;
     w_upsertRoom := fun _ _ => Ok tt;
     w_dirtyAfterSet := dirty |}.

(** A bare event of the given type and subtype in the given channel. *)
Definition bare (type : string) (subtype channel : option string)
  : SlackEvent :=
  {| ev_type := type; ev_channel := channel; ev_user := Some "U1";
     ev_bot_id := None; ev_subtype := subtype; ev_text := Some "hello @bob";
     ev_attachments := None; ev_comment := None; ev_message := None;
     ev_previous_message := None; ev_deleted_ts := None; ev_file := None;
     ev_item := None; ev_id := None; ev_name := None; ev_domain := None |}.

(** An edit in C1: the edited message, maybe the work of a bot, and the
    previous message, stored at 0. *)
Definition edit_event (bot : option string) : SlackEvent :=
  {| ev_type := "message"; ev_channel := Some "C1"; ev_user := None;
     ev_bot_id := None; ev_subtype := Some "message_changed";
     ev_text := None; ev_attachments := None; ev_comment := None;
     ev_message := Some {| msg_channel := None; msg_user := Some "U1";
                           msg_bot_id := bot;
                           msg_text := Some "hello bob" |};
     ev_previous_message := Some 0; ev_deleted_ts := None;
     ev_file := None; ev_item := None; ev_id := None; ev_name := None;
     ev_domain := None |}.

(** The bridge's own bot B1 speaks in C1. *)
Definition bot_event : SlackEvent :=
  {| ev_type := "message"; ev_channel := Some "C1"; ev_user := None;
     ev_bot_id := Some "B1"; ev_subtype := Some "bot_message";
     ev_text := Some "hello from the other side"; ev_attachments := None;
     ev_comment := None; ev_message := None; ev_previous_message := None;
     ev_deleted_ts := None; ev_file := None; ev_item := None; ev_id := None;
     ev_name := None; ev_domain := None |}.

(** The message with the given timestamp was deleted in C1. *)
Definition deleted_event (ts : string) : SlackEvent :=
  {| ev_type := "message"; ev_channel := Some "C1"; ev_user := Some "U1";
     ev_bot_id := None; ev_subtype := Some "message_deleted";
     ev_text := None; ev_attachments := None; ev_comment := None;
     ev_message := None; ev_previous_message := None;
     ev_deleted_ts := Some ts; ev_file := None; ev_item := None;
     ev_id := None; ev_name := None; ev_domain := None |}.

(** A message in C1 with the given attachments and text. *)
Definition attached_event (l : list Attachment) (text : option string)
  : SlackEvent :=
  {| ev_type := "message"; ev_channel := Some "C1"; ev_user := Some "U1";
     ev_bot_id := None; ev_subtype := None; ev_text := text;
     ev_attachments := Some l; ev_comment := None; ev_message := None;
     ev_previous_message := None; ev_deleted_ts := None; ev_file := None;
     ev_item := None; ev_id := None; ev_name := None; ev_domain := None |}.

(** The team of T1 takes the domain newacme. *)
Definition domain_event : SlackEvent :=
  {| ev_type := "team_domain_change"; ev_channel := None; ev_user := None;
     ev_bot_id := None; ev_subtype := None; ev_text := None;
     ev_attachments := None; ev_comment := None; ev_message := None;
     ev_previous_message := None; ev_deleted_ts := None; ev_file := None;
     ev_item := None; ev_id := None; ev_name := None;
     ev_domain := Some "newacme" |}.

End Examples.

(** * Properties *)

(** ** What every step of a run keeps *)

(** A relation between the store before, the store after and the calls in
    between, closed under doing nothing and under doing one thing after
    another. *)
Record Invariant : Type := mkInvariant {
  holds : Store -> Store -> Trace -> Prop;
  holds_refl : forall s, holds s s [];
  holds_trans : forall s1 s2 s3 t1 t2,
    holds s1 s2 t1 -> holds s2 s3 t2 -> holds s1 s3 (t1 ++ t2)
}.

Definition keeps (I : Invariant) {A : Type} (m : M A) : Prop :=
  forall s, holds I s (store_of (m s)) (trace_of (m s)).

Section Keeps.

Variable I : Invariant.

Lemma keeps_ret {A : Type} (a : A) : keeps I (ret a).
Proof. intro s. apply holds_refl. Qed.

Lemma keeps_throw {A : Type} (ex : JsVal) : keeps I (@throw A ex).
Proof. intro s. apply holds_refl. Qed.

Lemma keeps_get_room (room : RoomRef) : keeps I (get_room room).
Proof. intro s. apply holds_refl. Qed.

Lemma keeps_get_msg (p : MsgRef) : keeps I (get_msg p).
Proof. intro s. apply holds_refl. Qed.

Lemma keeps_bind {A B : Type} (m : M A) (k : A -> M B) :
  keeps I m -> (forall a, keeps I (k a)) -> keeps I (bind m k).
Proof.
  intros Hm Hk s. unfold bind.
  specialize (Hm s). destruct (m s) as [[[a | ex] s1] t1]; cbn in *.
  - specialize (Hk a s1). destruct (k a s1) as [[r s2] t2]; cbn in *.
    eapply holds_trans; eassumption.
  - exact Hm.
Qed.

Lemma keeps_try_catch {A : Type} (m : M A) (h : JsVal -> M A) :
  keeps I m -> (forall ex, keeps I (h ex)) -> keeps I (try_catch m h).
Proof.
  intros Hm Hh s. unfold try_catch.
  specialize (Hm s). destruct (m s) as [[[a | ex] s1] t1]; cbn in *.
  - exact Hm.
  - specialize (Hh ex s1). destruct (h ex s1) as [[r s2] t2]; cbn in *.
    eapply holds_trans; eassumption.
Qed.

Lemma keeps_attempt {A : Type} (m : M A) :
  keeps I m -> keeps I (attempt m).
Proof.
  intro Hm. unfold attempt. apply keeps_try_catch.
  - apply keeps_bind; [exact Hm | intro; apply keeps_ret].
  - intro. apply keeps_ret.
Qed.

Lemma keeps_promise_all_map {A : Type} (f : A -> M unit) (l : list A) :
  (forall x, keeps I (f x)) -> keeps I (promise_all_map f l).
Proof.
  intro Hf. induction l as [| x xs IH]; intro s; cbn.
  - apply holds_refl.
  - specialize (Hf x s). destruct (f x s) as [[r1 s1] t1]; cbn in *.
    specialize (IH s1).
    destruct (promise_all_map f xs s1) as [[r2 s2] t2]; cbn in *.
    eapply holds_trans; eassumption.
Qed.

(** The handlers below [handle] never call the response; they write the
    rooms; and the one write to a stored message is the one of
    [message_changed_step]. *)
Hypothesis holds_call :
  forall s e, is_respond e = false -> holds I s s [e].

Hypothesis holds_rooms :
  forall s rooms,
    holds I s {| st_rooms := rooms; st_msgs := st_msgs s |} [].

Lemma keeps_call {A : Type} (e : Effect) (r : Result A) :
  is_respond e = false -> keeps I (call e r).
Proof. intros He s. apply holds_call, He. Qed.

Lemma keeps_emit (e : Effect) : is_respond e = false -> keeps I (emit e).
Proof. intros He s. apply holds_call, He. Qed.

Variable w : World.

Lemma keeps_upsertRoom (room : RoomRef) : keeps I (upsertRoom w room).
Proof. intro s. apply holds_call. reflexivity. Qed.

Lemma keeps_assign (room : RoomRef) (f : BridgedRoom -> BridgedRoom) :
  keeps I (assign w room f).
Proof. intro s. apply holds_rooms. Qed.

End Keeps.

Create HintDb calls.
#[global] Hint Unfold log startTimer endTimer incCounter
  getRoomBySlackChannelId getRoomsBySlackTeamId onSlackMessage onSlackTopic
  onSlackReactionAdded onSlackTyping doChannelUserReplacements
  enablePublicSharing fetchFileContent getEventBySlackId redactEvent
  set_SlackTeamDomain set_SlackChannelName : calls.

(** One rule of the above, chosen by the shape of the computation. *)
Ltac keeps_step :=
  lazymatch goal with
  | |- keeps _ (bind _ _) => apply keeps_bind; [| intro]
  | |- keeps _ (ret _) => apply keeps_ret
  | |- keeps _ (throw _) => apply keeps_throw
  | |- keeps _ (get_room _) => apply keeps_get_room
  | |- keeps _ (get_msg _) => apply keeps_get_msg
  | |- keeps _ (try_catch _ _) => apply keeps_try_catch; [| intro]
  | |- keeps _ (attempt _) => apply keeps_attempt
  | |- keeps _ (call _ _) => apply keeps_call; [assumption | reflexivity]
  | |- keeps _ (emit _) => apply keeps_emit; [assumption | reflexivity]
  | |- keeps _ (upsertRoom _ _) => apply keeps_upsertRoom; assumption
  | |- keeps _ (assign _ _ _) => apply keeps_assign; assumption
  | |- keeps _ (promise_all_map _ _) => apply keeps_promise_all_map; intro
  | |- keeps _ (match ?x with _ => _ end) => destruct x eqn:?
  end.

Ltac keeps_all := autounfold with calls; repeat keeps_step.

Section KeepsHandlers.

Variable I : Invariant.
Variable w : World.

Hypothesis holds_call :
  forall s e, is_respond e = false -> holds I s s [e].

Hypothesis holds_rooms :
  forall s rooms,
    holds I s {| st_rooms := rooms; st_msgs := st_msgs s |} [].

Lemma keeps_attachments_step room client msg teamId :
  keeps I (attachments_step w room client msg teamId).
Proof. unfold attachments_step. keeps_all. Qed.

Lemma keeps_message_deleted_step msg :
  keeps I (message_deleted_step w msg).
Proof. unfold message_deleted_step. keeps_all. Qed.

Lemma keeps_file_share_step room msg :
  keeps I (file_share_step w room msg).
Proof. unfold file_share_step. keeps_all. Qed.

Lemma keeps_forward_step room event msg teamId :
  keeps I (forward_step w room event msg teamId).
Proof.
  unfold forward_step. keeps_all.
  apply keeps_file_share_step.
Qed.

Lemma keeps_message_changed_step room client msg message p :
  (forall s t, holds I s (write_text p t s) []) ->
  keeps I (message_changed_step w room client msg message p).
Proof.
  intro Hwrite. unfold message_changed_step. keeps_all.
  intro s. apply Hwrite.
Qed.

Lemma keeps_handleReaction event teamId :
  keeps I (handleReaction w event teamId).
Proof. unfold handleReaction. keeps_all. Qed.

Lemma keeps_handleDomainChangeEvent event teamId :
  keeps I (handleDomainChangeEvent w event teamId).
Proof. unfold handleDomainChangeEvent. keeps_all. Qed.

Lemma keeps_handleChannelRenameEvent event :
  keeps I (handleChannelRenameEvent w event).
Proof. unfold handleChannelRenameEvent. keeps_all. Qed.

Lemma keeps_handleTyping event teamId :
  keeps I (handleTyping w event teamId).
Proof. unfold handleTyping. keeps_all. Qed.

End KeepsHandlers.

(** ** Small facts on the JavaScript operators *)

Lemma strict_eq_refl (a : option string) : strict_eq a a = true.
Proof. destruct a as [x |]; cbn; [apply String.eqb_refl | reflexivity]. Qed.

Lemma strict_eq_true (a b : option string) : strict_eq a b = true -> a = b.
Proof.
  destruct a as [x |], b as [y |]; cbn; try discriminate; try reflexivity.
  intro H. apply String.eqb_eq in H. now subst.
Qed.

Lemma subtype_is_true (m : Msg) (lit : string) :
  subtype_is m lit = true -> ev_subtype (base m) = Some lit.
Proof. apply strict_eq_true. Qed.

(** ** [handle], piece by piece *)

Lemma record_outcome_returns event teamId err s :
  result (record_outcome event teamId err s) = Ok tt
  /\ store_of (record_outcome event teamId err s) = s.
Proof.
  unfold record_outcome.
  destruct (is_str err "unknown_channel"); [split; reflexivity |].
  destruct (is_str err "unknown_event"); destruct (is_null err);
    split; reflexivity.
Qed.

Lemma after_ack_returns w event teamId s :
  result (after_ack w event teamId s) = Ok tt.
Proof.
  unfold after_ack, bind, try_catch.
  destruct (dispatch w event teamId s) as [[[err | ex] s1] t1]; cbn.
  - destruct (record_outcome_returns event teamId err s1) as [Hr _].
    destruct (record_outcome event teamId err s1) as [[r s2] t2].
    exact Hr.
  - destruct (record_outcome_returns event teamId ex s1) as [Hr _].
    destruct (record_outcome event teamId ex s1) as [[r s2] t2].
    exact Hr.
Qed.

(** [handle] is the three calls and then [after_ack], unless the response
    callback itself throws, which the outer [catch] logs. *)
Lemma handle_run w event teamId response s :
  handle w event teamId response s =
  match response HTTP_OK (Some "OK") with
  | Ok _ =>
      (Ok tt, store_of (after_ack w event teamId s),
       ack_prefix ++ trace_of (after_ack w event teamId s))
  | Throw ex =>
      (Ok tt, s,
       ack_prefix ++ [ELog LError "SlackEventHandler.handle failed:" (Some ex)])
  end.
Proof.
  pose proof (after_ack_returns w event teamId s) as Hr.
  unfold handle, try_catch at 1, bind at 1 2 3, log at 1, startTimer,
    respond, emit, call.
  fold (after_ack w event teamId).
  destruct (response HTTP_OK (Some "OK")) as [[] | ex]; [| reflexivity].
  destruct (after_ack w event teamId s) as [[r s1] t1]; cbn in *.
  subst r. reflexivity.
Qed.

(** The run of [handle] when the response callback returns, from the run of
    the switch. *)
Lemma handle_of_dispatch w event teamId response s :
  response HTTP_OK (Some "OK") = Ok tt ->
  handle w event teamId response s =
  match dispatch w event teamId s with
  | (Ok err, s1, t1) =>
      (Ok tt, s1,
       ack_prefix ++ t1 ++ trace_of (record_outcome event teamId err s1))
  | (Throw ex, s1, t1) =>
      (Ok tt, s1,
       ack_prefix ++ t1
         ++ ELog LWarn "Didn't handle event:" (Some ex)
         :: trace_of (record_outcome event teamId ex s1))
  end.
Proof.
  intro Hack. rewrite handle_run, Hack.
  unfold after_ack, bind, try_catch.
  destruct (dispatch w event teamId s) as [[[err | ex] s1] t1]; cbn.
  - destruct (record_outcome_returns event teamId err s1) as [_ Hs].
    destruct (record_outcome event teamId err s1) as [[r s2] t2].
    cbn in *. subst s2. reflexivity.
  - destruct (record_outcome_returns event teamId ex s1) as [_ Hs].
    destruct (record_outcome event teamId ex s1) as [[r s2] t2].
    cbn in *. subst s2. rewrite <- app_assoc. reflexivity.
Qed.

(** A message event goes to [handleMessageEvent]. *)
Lemma dispatch_message w event teamId s :
  ev_type event = "message" ->
  dispatch w event teamId s =
  match handleMessageEvent w event teamId s with
  | (Ok _, s1, t1) => (Ok VNull, s1, t1)
  | (Throw ex, s1, t1) => (Throw ex, s1, t1)
  end.
Proof.
  intro Hty. unfold dispatch. rewrite Hty, String.eqb_refl. unfold bind, ret.
  destruct (handleMessageEvent w event teamId s) as [[[[] | ex] s1] t1];
    [rewrite app_nil_r |]; reflexivity.
Qed.

(** ** The one write to a nested object *)

Section KeepsHandle.

Variable I : Invariant.
Variable w : World.
Variable event : SlackEvent.

Hypothesis holds_call :
  forall s e, is_respond e = false -> holds I s s [e].

Hypothesis holds_rooms :
  forall s rooms,
    holds I s {| st_rooms := rooms; st_msgs := st_msgs s |} [].

Hypothesis holds_write :
  forall p, writes_previous event p ->
  forall s t, holds I s (write_text p t s) [].

Lemma keeps_subtype_step room client msg :
  ev_type event = "message" ->
  base msg = event ->
  keeps I (subtype_step w room client msg).
Proof.
  intros Hty Hbase. unfold subtype_step.
  destruct (subtype_is msg "file_comment"), (ev_comment (base msg));
    try apply keeps_ret.
  all: destruct (subtype_is msg "message_changed") eqn:Hsub;
    [destruct (ev_message (base msg)) as [message |] eqn:Hmsg;
     [destruct (ev_previous_message (base msg)) as [p |] eqn:Hprev |] |].
  all: try (apply keeps_message_changed_step; try assumption;
            apply holds_write; rewrite <- Hbase;
            repeat split;
            [congruence | now apply subtype_is_true | congruence
            | assumption]).
  all: destruct (subtype_is msg "message_deleted");
    [apply keeps_message_deleted_step; assumption |].
  all: destruct (subtype_is msg "message_replied"); apply keeps_ret.
Qed.

Lemma keeps_handleMessageEvent teamId :
  ev_type event = "message" ->
  keeps I (handleMessageEvent w event teamId).
Proof.
  intro Hty. unfold handleMessageEvent.
  apply keeps_bind; [keeps_all | intros [room |]; [| apply keeps_throw]].
  apply keeps_bind; [apply keeps_get_room | intro rm].
  match goal with |- keeps _ (if ?b then _ else _) => destruct b end;
    [apply keeps_ret |].
  apply keeps_bind; [keeps_all | intros _].
  apply keeps_bind; [apply keeps_get_room | intro rm'].
  destruct (SlackClient rm') as [client |]; [| keeps_all].
  match goal with |- keeps _ (if ?b then _ else _) => destruct b end;
    [keeps_all |].
  apply keeps_bind; [apply keeps_attachments_step; assumption |].
  intros [|]; [apply keeps_ret |].
  apply keeps_bind; [now apply keeps_subtype_step |].
  intros [| msg]; [apply keeps_ret |].
  apply keeps_forward_step; assumption.
Qed.

Lemma keeps_dispatch teamId : keeps I (dispatch w event teamId).
Proof.
  unfold dispatch.
  destruct (ev_type event =? "message") eqn:Hty.
  { apply String.eqb_eq in Hty.
    apply keeps_bind; [now apply keeps_handleMessageEvent |].
    intro. apply keeps_ret. }
  repeat match goal with
         | |- keeps _ (if ?b then _ else _) => destruct b
         end;
    try apply keeps_ret;
    (apply keeps_bind; [| intro; apply keeps_ret]).
  - apply keeps_handleReaction; assumption.
  - apply keeps_handleChannelRenameEvent; assumption.
  - apply keeps_handleDomainChangeEvent; assumption.
  - apply keeps_handleTyping; assumption.
Qed.

Lemma keeps_record_outcome teamId err :
  keeps I (record_outcome event teamId err).
Proof. unfold record_outcome. keeps_all. Qed.

Lemma keeps_after_ack teamId : keeps I (after_ack w event teamId).
Proof.
  unfold after_ack.
  apply keeps_bind.
  - apply keeps_try_catch; [apply keeps_dispatch | intro; keeps_all].
  - intro. apply keeps_record_outcome.
Qed.

End KeepsHandle.

(** ** The acknowledgement *)

(** No call in between is a call of the response callback. *)
Definition no_respond : Invariant.
Proof.
  refine {| holds := fun _ _ t => Forall not_respond t |}.
  - intros _. constructor.
  - intros _ _ _ t1 t2 H1 H2. apply Forall_app. split; assumption.
Defined.

(** C2.  Whatever the event, the team, the callback and the rest of the
    bridge: the calls of [handle] start with the debug log line, the start of
    the timer and the response callback called with 200 and OK, so that the
    callback is called before the switch on the event's type and before any
    call to a registry, a room, the datastore, the mention resolver or the
    file gateway; and the callback is not called a second time. *)
Theorem ack_comes_first w event teamId response s :
  exists rest,
    trace_of (handle w event teamId response s)
    = ELog LDebug "Received slack event:" None
        :: EStartTimer "remote_request_seconds"
        :: ERespond 200 (Some "OK") :: rest
    /\ Forall not_respond rest.
Proof.
  rewrite handle_run.
  destruct (response HTTP_OK (Some "OK")) as [u | ex].
  - exists (trace_of (after_ack w event teamId s)). split; [reflexivity |].
    apply (keeps_after_ack no_respond w event).
    + intros s0 e He. repeat constructor. exact He.
    + intros s0 rooms. constructor.
    + intros p _ s0 t. constructor.
  - eexists. split; [reflexivity |]. repeat constructor.
Qed.

(** ** No exception leaves [handle] *)

(** C3.  Whatever the event, the callback and the rest of the bridge do,
    throwing included, [handle] returns: when the response callback throws,
    the outer [catch] logs what it threw; when a handler throws, the inner
    [catch] logs what it threw; nothing is thrown on to the caller. *)
Theorem handle_never_throws w event teamId response s :
  result (handle w event teamId response s) = Ok tt
  /\ match response HTTP_OK (Some "OK") with
     | Throw ex =>
         In (ELog LError "SlackEventHandler.handle failed:" (Some ex))
            (trace_of (handle w event teamId response s))
     | Ok _ =>
         match result (dispatch w event teamId s) with
         | Throw ex =>
             In (ELog LWarn "Didn't handle event:" (Some ex))
                (trace_of (handle w event teamId response s))
         | Ok _ => True
         end
     end.
Proof.
  destruct (response HTTP_OK (Some "OK")) as [[] | ex] eqn:Hack.
  - rewrite (handle_of_dispatch w event teamId response s Hack).
    destruct (dispatch w event teamId s) as [[[err | ex] s1] t1]; cbn.
    + split; [reflexivity | exact Logic.I].
    + split; [reflexivity |].
      right. right. right. apply in_or_app. right. left. reflexivity.
  - rewrite handle_run, Hack. split; [reflexivity |].
    cbn. right. right. right. left. reflexivity.
Qed.

(** ** The event after the call *)

Lemma same_but_text_refl (a : ISlackMessage) : same_but_text a a.
Proof. repeat split. Qed.

Lemma same_but_text_trans (a b c : ISlackMessage) :
  same_but_text a b -> same_but_text b c -> same_but_text a c.
Proof.
  intros (H1 & H2 & H3) (H4 & H5 & H6). repeat split; congruence.
Qed.

(** Stored messages stay as they are, but for the text of the previous
    message of an edit. *)
Definition previous_only (event : SlackEvent) : Invariant.
Proof.
  refine {| holds := fun s s' _ =>
              forall p,
                st_msgs s' p = st_msgs s p
                \/ (writes_previous event p
                    /\ same_but_text (st_msgs s p) (st_msgs s' p)) |}.
  - intros s p. left. reflexivity.
  - intros s1 s2 s3 _ _ H12 H23 p.
    destruct (H12 p) as [E12 | [Hw S12]], (H23 p) as [E23 | [Hw' S23]].
    + left. congruence.
    + right. split; [assumption |]. rewrite <- E12. assumption.
    + right. split; [assumption |]. rewrite E23. assumption.
    + right. split; [assumption |].
      eapply same_but_text_trans; eassumption.
Defined.

(** What [handle] can write of the stored messages.  The event's own
    properties are never assigned (every assignment of [handleMessageEvent]
    is to the copy made by [Object.assign]), but the copy shares the nested
    objects: after [handle], every stored message is as it was, except the
    previous message of a [message_changed] message event that carries both
    messages, and that one differs in its text at most. *)
Lemma only_previous_text_is_written w event teamId response s p :
  st_msgs (store_of (handle w event teamId response s)) p = st_msgs s p
  \/ (writes_previous event p
      /\ same_but_text (st_msgs s p)
           (st_msgs (store_of (handle w event teamId response s)) p)).
Proof.
  rewrite handle_run.
  destruct (response HTTP_OK (Some "OK")) as [u | ex];
    [| left; reflexivity].
  cbn [store_of fst snd].
  apply (keeps_after_ack (previous_only event) w event).
  - intros s0 e _ q. left. reflexivity.
  - intros s0 rooms q. left. reflexivity.
  - intros q Hq s0 t r. unfold write_text, upd. cbn.
    destruct (Nat.eqb r q) eqn:Hrq; [| left; reflexivity].
    apply Nat.eqb_eq in Hrq. subst r. right.
    split; [assumption | repeat split].
Qed.


(** ** [handleMessageEvent], piece by piece *)

Lemma handleMessageEvent_unknown_channel w event teamId s :
  w_getRoomBySlackChannelId w (ev_channel event) = Ok None ->
  handleMessageEvent w event teamId s
  = (Throw (VError "unknown_channel"), s,
     [EGetRoomBySlackChannelId (ev_channel event)]).
Proof.
  intro Hroom.
  unfold handleMessageEvent, bind, getRoomBySlackChannelId, call.
  rewrite Hroom. reflexivity.
Qed.

Lemma handleMessageEvent_echo w event teamId s room :
  w_getRoomBySlackChannelId w (ev_channel event) = Ok (Some room) ->
  is_echo event (st_rooms s room) = true ->
  handleMessageEvent w event teamId s
  = (Ok tt, s, [EGetRoomBySlackChannelId (ev_channel event)]).
Proof.
  intros Hroom Hecho.
  unfold handleMessageEvent, bind, getRoomBySlackChannelId, call, get_room.
  rewrite Hroom. unfold is_echo in Hecho. rewrite Hecho. reflexivity.
Qed.

(** A message that is not the bridge's own and not a topic, in a room with
    a client: the attachments, then the subtype, then the forwarding. *)
Lemma handleMessageEvent_with_client w event teamId s room client :
  w_getRoomBySlackChannelId w (ev_channel event) = Ok (Some room) ->
  SlackClient (st_rooms s room) = Some client ->
  is_echo event (st_rooms s room) = false ->
  is_topic event = false ->
  handleMessageEvent w event teamId s
  = let msg := message_copy event (st_rooms s room) teamId in
    match attachments_step w room client msg teamId s with
    | (Ok true, s1, t1) => (Ok tt, s1, counted event ++ t1)
    | (Ok false, s1, t1) =>
        match subtype_step w room client msg s1 with
        | (Ok Done, s2, t2) => (Ok tt, s2, counted event ++ t1 ++ t2)
        | (Ok (Next m), s2, t2) =>
            match forward_step w room event m teamId s2 with
            | (r, s3, t3) => (r, s3, counted event ++ t1 ++ t2 ++ t3)
            end
        | (Throw ex, s2, t2) => (Throw ex, s2, counted event ++ t1 ++ t2)
        end
    | (Throw ex, s1, t1) => (Throw ex, s1, counted event ++ t1)
    end.
Proof.
  intros Hroom Hclient Hecho Htopic.
  unfold handleMessageEvent, bind, getRoomBySlackChannelId, call, get_room,
    incCounter, emit.
  rewrite Hroom. unfold is_echo in Hecho. rewrite Hecho, Hclient.
  fold (message_copy event (st_rooms s room) teamId).
  unfold is_topic in Htopic. unfold subtype_is at 1 2.
  change (base (message_copy event (st_rooms s room) teamId)) with event.
  rewrite Htopic.
  destruct (attachments_step w room client
              (message_copy event (st_rooms s room) teamId) teamId s)
    as [[[[|] | ex] s1] t1]; cbn; try rewrite app_nil_r; try reflexivity.
  destruct (subtype_step w room client
              (message_copy event (st_rooms s room) teamId) s1)
    as [[[[| m] | ex] s2] t2]; cbn; try rewrite app_nil_r; try reflexivity.
  destruct (forward_step w room event m teamId s2) as [[r s3] t3].
  reflexivity.
Qed.

(** The forwarding of lines 221 to 247 for a message that shares no file. *)
Lemma forward_step_plain w room event msg teamId s client :
  SlackClient (st_rooms s room) = Some client ->
  subtype_is msg "file_share" = false ->
  forward_step w room event msg teamId s
  = match w_doChannelUserReplacements w msg (ev_text (base msg)) client with
    | Ok t =>
        (w_onSlackMessage w room (set_text msg t) teamId None, s,
         [EDoChannelUserReplacements msg (ev_text (base msg)) client;
          EOnSlackMessage room (set_text msg t) teamId None])
    | Throw ex =>
        (Throw ex, s,
         [EDoChannelUserReplacements msg (ev_text (base msg)) client])
    end.
Proof.
  intros Hclient Hshare.
  unfold forward_step, bind, get_room, file_share_step,
    doChannelUserReplacements, onSlackMessage, call.
  rewrite Hclient, Hshare. cbn.
  destruct (w_doChannelUserReplacements w msg (ev_text (base msg)) client);
    reflexivity.
Qed.

(** ** Unknown channels *)

(** Whatever the handler, it throws the same [Error] when the registry has
    no room for the channel it asks for. *)
Lemma dispatch_unknown_channel w event teamId s channel :
  relevant_channel event = Some channel ->
  w_getRoomBySlackChannelId w channel = Ok None ->
  dispatch w event teamId s
  = (Throw (VError "unknown_channel"), s,
     [EGetRoomBySlackChannelId channel]).
Proof.
  unfold relevant_channel, dispatch. intros Hrel Hroom.
  destruct (ev_type event =? "message").
  { injection Hrel as <-.
    unfold bind.
    rewrite (handleMessageEvent_unknown_channel w event teamId s Hroom).
    reflexivity. }
  destruct ((ev_type event =? "reaction_added")
            || (ev_type event =? "reaction_removed")).
  { unfold handleReaction, bind.
    destruct (ev_item event) as [item |]; [| discriminate].
    injection Hrel as <-.
    unfold getRoomBySlackChannelId, call. rewrite Hroom. reflexivity. }
  destruct (ev_type event =? "channel_rename").
  { injection Hrel as <-.
    unfold handleChannelRenameEvent, bind, getRoomBySlackChannelId, call.
    rewrite Hroom. reflexivity. }
  destruct (ev_type event =? "team_domain_change"); [discriminate |].
  destruct (ev_type event =? "user_typing"); [| discriminate].
  injection Hrel as <-.
  unfold handleTyping, bind, getRoomBySlackChannelId, call.
  rewrite Hroom. reflexivity.
Qed.

(** C1 on the code.  An event whose handler looks up a channel (a message,
    a reaction, a rename, a typing notice) for which the registry has no
    room, the response callback having returned: the handler throws [new
    Error("unknown_channel")], and [handle] compares the caught [Error]
    object with the string "unknown_channel" by [===], which is false.  The
    calls after the lookup are the warning of the inner [catch], the end of
    the timer with outcome fail and the error log line: no warning names
    the channel, nothing is counted and the outcome is not dropped. *)
Theorem unknown_channel_is_recorded_as_fail
    w event teamId response s channel :
  response HTTP_OK (Some "OK") = Ok tt ->
  relevant_channel event = Some channel ->
  w_getRoomBySlackChannelId w channel = Ok None ->
  handle w event teamId response s
  = (Ok tt, s,
     [ELog LDebug "Received slack event:" None;
      EStartTimer "remote_request_seconds";
      ERespond 200 (Some "OK");
      EGetRoomBySlackChannelId channel;
      ELog LWarn "Didn't handle event:" (Some (VError "unknown_channel"));
      EEndTimer "fail";
      ELog LError "Failed to handle slack event:"
           (Some (VError "unknown_channel"))]).
Proof.
  intros Hack Hrel Hroom.
  rewrite (handle_of_dispatch w event teamId response s Hack).
  rewrite (dispatch_unknown_channel w event teamId s channel Hrel Hroom).
  reflexivity.
Qed.

(** A message in C9, which is not bridged. *)
Lemma unknown_channel_is_recorded_as_fail_witness :
  handle Examples.world0 (Examples.bare "message" None (Some "C9")) "T1"
         Examples.ok_response Examples.store0
  = (Ok tt, Examples.store0,
     [ELog LDebug "Received slack event:" None;
      EStartTimer "remote_request_seconds";
      ERespond 200 (Some "OK");
      EGetRoomBySlackChannelId (Some "C9");
      ELog LWarn "Didn't handle event:" (Some (VError "unknown_channel"));
      EEndTimer "fail";
      ELog LError "Failed to handle slack event:"
           (Some (VError "unknown_channel"))]).
Proof.
  apply (unknown_channel_is_recorded_as_fail
           Examples.world0 (Examples.bare "message" None (Some "C9")) "T1"
           Examples.ok_response Examples.store0 (Some "C9"));
    reflexivity.
Defined.

(** ** The bridge's own messages *)

(** C4.  A message event with subtype [bot_message] in a bridged channel
    whose room knows no bot of the bridge, or knows the one the event names:
    whether or not the room has a client, the calls are the three of every
    run, the lookup of the room and the end of the timer with outcome
    success, so nothing is forwarded and nothing is counted. *)
Theorem bot_echo_is_suppressed w event teamId response s room :
  response HTTP_OK (Some "OK") = Ok tt ->
  ev_type event = "message" ->
  w_getRoomBySlackChannelId w (ev_channel event) = Ok (Some room) ->
  ev_subtype event = Some "bot_message" ->
  truthy (SlackBotId (st_rooms s room)) = false
  \/ ev_bot_id event = SlackBotId (st_rooms s room) ->
  handle w event teamId response s
  = (Ok tt, s,
     [ELog LDebug "Received slack event:" None;
      EStartTimer "remote_request_seconds";
      ERespond 200 (Some "OK");
      EGetRoomBySlackChannelId (ev_channel event);
      EEndTimer "success"]).
Proof.
  intros Hack Hty Hroom Hsub Hbot.
  rewrite (handle_of_dispatch w event teamId response s Hack).
  rewrite (dispatch_message w event teamId s Hty).
  rewrite (handleMessageEvent_echo w event teamId s room Hroom);
    [reflexivity |].
  unfold is_echo. rewrite Hsub. cbn.
  destruct Hbot as [Hnone | Hsame].
  - rewrite Hnone. reflexivity.
  - rewrite Hsame, strict_eq_refl. apply orb_true_r.
Qed.

(** B1 is the bot of the room of C1. *)
Lemma bot_echo_is_suppressed_witness :
  handle Examples.world0 Examples.bot_event "T1" Examples.ok_response
         Examples.store0
  = (Ok tt, Examples.store0,
     [ELog LDebug "Received slack event:" None;
      EStartTimer "remote_request_seconds";
      ERespond 200 (Some "OK");
      EGetRoomBySlackChannelId (Some "C1");
      EEndTimer "success"]).
Proof.
  apply (bot_echo_is_suppressed Examples.world0 Examples.bot_event "T1"
           Examples.ok_response Examples.store0 0);
    try reflexivity.
  right. reflexivity.
Defined.

(** ** What [handle] adds to the calls of [handleMessageEvent] *)

Lemma forwards_app (t1 t2 : Trace) :
  forwards (t1 ++ t2) = forwards t1 ++ forwards t2.
Proof. apply filter_app. Qed.

Lemma redactions_app (t1 t2 : Trace) :
  redactions (t1 ++ t2) = redactions t1 ++ redactions t2.
Proof. apply filter_app. Qed.

Lemma record_outcome_quiet event teamId err s :
  forwards (trace_of (record_outcome event teamId err s)) = []
  /\ redactions (trace_of (record_outcome event teamId err s)) = [].
Proof.
  unfold record_outcome.
  destruct (is_str err "unknown_channel"); [split; reflexivity |].
  destruct (is_str err "unknown_event"); destruct (is_null err);
    split; reflexivity.
Qed.

(** Around the calls of the handler of a message, [handle] forwards and
    redacts nothing itself. *)
Lemma handle_message_quiet w event teamId response s :
  response HTTP_OK (Some "OK") = Ok tt ->
  ev_type event = "message" ->
  forwards (trace_of (handle w event teamId response s))
  = forwards (trace_of (handleMessageEvent w event teamId s))
  /\ redactions (trace_of (handle w event teamId response s))
     = redactions (trace_of (handleMessageEvent w event teamId s)).
Proof.
  intros Hack Hty.
  rewrite (handle_of_dispatch w event teamId response s Hack).
  rewrite (dispatch_message w event teamId s Hty).
  destruct (handleMessageEvent w event teamId s) as [[[[] | ex] s1] t1].
  - destruct (record_outcome_quiet event teamId VNull s1) as [Hf Hr].
    cbn [trace_of snd]. rewrite forwards_app, redactions_app.
    rewrite forwards_app, redactions_app, Hf, Hr.
    rewrite !app_nil_r. split; reflexivity.
  - destruct (record_outcome_quiet event teamId ex s1) as [Hf Hr].
    cbn [trace_of snd]. rewrite forwards_app, redactions_app.
    rewrite forwards_app, redactions_app.
    change (forwards t1 ++ forwards (_ :: ?t)) with (forwards t1 ++ forwards t).
    change (redactions t1 ++ redactions (_ :: ?t))
      with (redactions t1 ++ redactions t).
    rewrite Hf, Hr, !app_nil_r. split; reflexivity.
Qed.

(** A message whose handler returns is recorded as a success. *)
Lemma handle_message_success w event teamId response s s1 t1 :
  response HTTP_OK (Some "OK") = Ok tt ->
  ev_type event = "message" ->
  handleMessageEvent w event teamId s = (Ok tt, s1, t1) ->
  handle w event teamId response s
  = (Ok tt, s1, ack_prefix ++ t1 ++ [EEndTimer "success"]).
Proof.
  intros Hack Hty Hrun.
  rewrite (handle_of_dispatch w event teamId response s Hack).
  rewrite (dispatch_message w event teamId s Hty), Hrun.
  reflexivity.
Qed.

(** ** Single steps of [handleMessageEvent] *)

Lemma attachments_step_past w room client msg teamId s :
  past_attachments (base msg) = true ->
  attachments_step w room client msg teamId s = (Ok false, s, []).
Proof.
  unfold past_attachments, attachments_step.
  destruct (ev_attachments (base msg)) as [[| a l] |];
    [| discriminate | reflexivity].
  destruct (strict_eq (ev_text (base msg)) (Some ""));
    [discriminate | reflexivity].
Qed.

Lemma subtype_step_deleted w room client msg s :
  ev_subtype (base msg) = Some "message_deleted" ->
  subtype_step w room client msg s = message_deleted_step w msg s.
Proof.
  intro Hsub. unfold subtype_step, subtype_is. rewrite Hsub. cbn.
  destruct (ev_message (base msg)), (ev_previous_message (base msg));
    reflexivity.
Qed.

(** A [message_changed] without one of its two messages matches no branch
    of the chain. *)
Lemma subtype_step_changed_incomplete w room client msg s :
  ev_subtype (base msg) = Some "message_changed" ->
  ev_message (base msg) = None \/ ev_previous_message (base msg) = None ->
  subtype_step w room client msg s = (Ok (Next msg), s, []).
Proof.
  intros Hsub Hmissing. unfold subtype_step, subtype_is. rewrite Hsub. cbn.
  destruct Hmissing as [H | H]; rewrite H;
    [| destruct (ev_message (base msg))]; reflexivity.
Qed.

Lemma subtype_step_changed w room client msg s message p :
  ev_subtype (base msg) = Some "message_changed" ->
  ev_message (base msg) = Some message ->
  ev_previous_message (base msg) = Some p ->
  subtype_step w room client msg s
  = message_changed_step w room client msg message p s.
Proof.
  intros Hsub Hmsg Hprev. unfold subtype_step, subtype_is.
  rewrite Hsub, Hmsg, Hprev. reflexivity.
Qed.

Lemma not_echo event rm lit :
  ev_subtype event = Some lit -> (lit =? "bot_message") = false ->
  is_echo event rm = false.
Proof. intros Hsub Hlit. unfold is_echo. rewrite Hsub. cbn. now rewrite Hlit. Qed.

Lemma not_topic event lit :
  ev_subtype event = Some lit ->
  (lit =? "channel_topic") = false -> (lit =? "group_topic") = false ->
  is_topic event = false.
Proof.
  intros Hsub H1 H2. unfold is_topic. rewrite Hsub. cbn. now rewrite H1, H2.
Qed.

(** ** Deleted messages *)

(** The run of [handleMessageEvent] on a deleted message that gets past the
    attachments, in a room with a client. *)
Lemma handleMessageEvent_deleted w event teamId s room client :
  ev_subtype event = Some "message_deleted" ->
  past_attachments event = true ->
  w_getRoomBySlackChannelId w (ev_channel event) = Ok (Some room) ->
  SlackClient (st_rooms s room) = Some client ->
  let msg := message_copy event (st_rooms s room) teamId in
  let lookup := EGetEventBySlackId (ev_channel event) (ev_deleted_ts event) in
  handleMessageEvent w event teamId s
  = match w_getEventBySlackId w (ev_channel event) (ev_deleted_ts event) with
    | Ok (Some e) =>
        (w_redactEvent w (roomId e) (eventId e), s,
         counted event ++ [lookup; ERedactEvent (roomId e) (eventId e)])
    | Ok None =>
        match w_doChannelUserReplacements w msg (ev_text event) client with
        | Ok t =>
            (w_onSlackMessage w room (set_text msg t) teamId None, s,
             counted event
               ++ [lookup;
                   EDoChannelUserReplacements msg (ev_text event) client;
                   EOnSlackMessage room (set_text msg t) teamId None])
        | Throw ex =>
            (Throw ex, s,
             counted event
               ++ [lookup;
                   EDoChannelUserReplacements msg (ev_text event) client])
        end
    | Throw ex => (Throw ex, s, counted event ++ [lookup])
    end.
Proof.
  intros Hsub Hpast Hroom Hclient msg lookup.
  rewrite (handleMessageEvent_with_client w event teamId s room client
             Hroom Hclient);
    [| now apply (not_echo event _ "message_deleted")
     | now apply (not_topic event "message_deleted")].
  cbv zeta. fold msg.
  rewrite (attachments_step_past w room client msg teamId s Hpast).
  rewrite (subtype_step_deleted w room client msg s Hsub).
  unfold message_deleted_step, bind, getEventBySlackId, redactEvent, call.
  change (base msg) with event. fold lookup.
  destruct (w_getEventBySlackId w (ev_channel event) (ev_deleted_ts event))
    as [[e |] | ex]; [| | reflexivity].
  - destruct (w_redactEvent w (roomId e) (eventId e)) as [[] | ex];
      reflexivity.
  - cbn [ret app].
    rewrite (forward_step_plain w room event msg teamId s client Hclient);
      [| unfold subtype_is; change (base msg) with event; now rewrite Hsub].
    change (base msg) with event.
    destruct (w_doChannelUserReplacements w msg (ev_text event) client)
      as [t | ex]; [| reflexivity].
    destruct (w_onSlackMessage w room (set_text msg t) teamId None)
      as [[] | ex]; reflexivity.
Qed.

(** C5, as the code has it.  A message event with subtype [message_deleted]
    that gets past the attachments, in a bridged channel whose room has a
    client.  When the datastore knows the deleted message, the bot's client
    is asked to redact it and nothing is forwarded.  When it does not, no
    redaction is asked for and the event goes on like any message: its text
    goes through the mention resolver and the result is forwarded once by
    [onSlackMessage]; when that call returns, the outcome is success. *)
Theorem deleted_message_is_redacted_or_forwarded
    w event teamId response s room client :
  response HTTP_OK (Some "OK") = Ok tt ->
  ev_type event = "message" ->
  ev_subtype event = Some "message_deleted" ->
  past_attachments event = true ->
  w_getRoomBySlackChannelId w (ev_channel event) = Ok (Some room) ->
  SlackClient (st_rooms s room) = Some client ->
  let msg := message_copy event (st_rooms s room) teamId in
  let run := handle w event teamId response s in
  (forall e,
     w_getEventBySlackId w (ev_channel event) (ev_deleted_ts event)
     = Ok (Some e) ->
     redactions (trace_of run) = [ERedactEvent (roomId e) (eventId e)]
     /\ forwards (trace_of run) = [])
  /\ (w_getEventBySlackId w (ev_channel event) (ev_deleted_ts event)
      = Ok None ->
      redactions (trace_of run) = []
      /\ (forall t,
           w_doChannelUserReplacements w msg (ev_text event) client = Ok t ->
           forwards (trace_of run)
           = [EOnSlackMessage room (set_text msg t) teamId None]
           /\ (w_onSlackMessage w room (set_text msg t) teamId None = Ok tt ->
               run
               = (Ok tt, s,
                  ack_prefix ++ counted event
                    ++ [EGetEventBySlackId (ev_channel event)
                                           (ev_deleted_ts event);
                        EDoChannelUserReplacements msg (ev_text event) client;
                        EOnSlackMessage room (set_text msg t) teamId None;
                        EEndTimer "success"])))).
Proof.
  intros Hack Hty Hsub Hpast Hroom Hclient msg run.
  destruct (handle_message_quiet w event teamId response s Hack Hty)
    as [Hfw Hrd].
  pose proof (handleMessageEvent_deleted w event teamId s room client
                Hsub Hpast Hroom Hclient) as Hrun.
  cbv zeta in Hrun. fold msg in Hrun.
  subst run. rewrite Hfw, Hrd.
  split.
  - intros e He. rewrite He in Hrun. rewrite Hrun. split; reflexivity.
  - intro Hnone. rewrite Hnone in Hrun. split.
    + destruct (w_doChannelUserReplacements w msg (ev_text event) client);
        rewrite Hrun; reflexivity.
    + intros t Ht. rewrite Ht in Hrun. split.
      * rewrite Hrun. reflexivity.
      * intro Hfwd. rewrite Hfwd in Hrun.
        rewrite (handle_message_success w event teamId response s _ _
                   Hack Hty Hrun).
        unfold counted. cbn. reflexivity.
Qed.

(** The message with timestamp 100 is known to the datastore, the one with
    timestamp 7 is not. *)
Lemma deleted_message_is_redacted_or_forwarded_witness :
  (redactions
     (trace_of (handle Examples.world0 (Examples.deleted_event "100") "T1"
                       Examples.ok_response Examples.store0))
   = [ERedactEvent "!room:hs" "$event"]
   /\ forwards
        (trace_of (handle Examples.world0 (Examples.deleted_event "100") "T1"
                          Examples.ok_response Examples.store0))
      = [])
  /\ redactions
       (trace_of (handle Examples.world0 (Examples.deleted_event "7") "T1"
                         Examples.ok_response Examples.store0))
     = []
  /\ forwards
       (trace_of (handle Examples.world0 (Examples.deleted_event "7") "T1"
                         Examples.ok_response Examples.store0))
     = [EOnSlackMessage 0
          (set_text (message_copy (Examples.deleted_event "7")
                                  Examples.room_acme "T1") None)
          "T1" None].
Proof.
  split; [| split].
  - exact (proj1 (deleted_message_is_redacted_or_forwarded
                    Examples.world0 (Examples.deleted_event "100") "T1"
                    Examples.ok_response Examples.store0 0 "client"
                    eq_refl eq_refl eq_refl eq_refl eq_refl eq_refl)
                 {| roomId := "!room:hs"; eventId := "$event" |} eq_refl).
  - exact (proj1 (proj2 (deleted_message_is_redacted_or_forwarded
                    Examples.world0 (Examples.deleted_event "7") "T1"
                    Examples.ok_response Examples.store0 0 "client"
                    eq_refl eq_refl eq_refl eq_refl eq_refl eq_refl)
                 eq_refl)).
  - exact (proj1 (proj2 (proj2 (deleted_message_is_redacted_or_forwarded
                    Examples.world0 (Examples.deleted_event "7") "T1"
                    Examples.ok_response Examples.store0 0 "client"
                    eq_refl eq_refl eq_refl eq_refl eq_refl eq_refl)
                 eq_refl) None eq_refl)).
Defined.

(** C5 as it is specified fails: the deletion of a message the datastore
    does not know, in C1, whose room has a client, is forwarded by
    [onSlackMessage]. *)
Lemma unknown_deleted_message_is_forwarded :
  ev_subtype (Examples.deleted_event "7") = Some "message_deleted"
  /\ SlackClient (st_rooms Examples.store0 0) = Some "client"
  /\ w_getEventBySlackId Examples.world0 (Some "C1") (Some "7") = Ok None
  /\ forwards
       (trace_of (handle Examples.world0 (Examples.deleted_event "7") "T1"
                         Examples.ok_response Examples.store0))
     = [EOnSlackMessage 0
          (message_copy (Examples.deleted_event "7") Examples.room_acme "T1")
          "T1" None].
Proof. repeat split. Qed.

(** ** Edited messages *)

(** C10, as the code has it.  A message event with subtype
    [message_changed] that lacks the
    edited message or the previous one, gets past the attachments and is in
    a bridged channel whose room has a client: no branch of the chain on the
    subtype applies, and once the mention resolver has answered for the
    event's own text, [onSlackMessage] is called once, with that answer as
    text and with the event's user (or else bot) as [user_id]; when that
    call returns, the outcome is success, and no stored object has
    changed. *)
Theorem incomplete_edit_is_forwarded
    w event teamId response s room client t :
  response HTTP_OK (Some "OK") = Ok tt ->
  ev_type event = "message" ->
  ev_subtype event = Some "message_changed" ->
  ev_message event = None \/ ev_previous_message event = None ->
  past_attachments event = true ->
  w_getRoomBySlackChannelId w (ev_channel event) = Ok (Some room) ->
  SlackClient (st_rooms s room) = Some client ->
  let msg := message_copy event (st_rooms s room) teamId in
  w_doChannelUserReplacements w msg (ev_text event) client = Ok t ->
  let run := handle w event teamId response s in
  forwards (trace_of run)
  = [EOnSlackMessage room (set_text msg t) teamId None]
  /\ ev_text (base (set_text msg t)) = t
  /\ user_id (set_text msg t) = js_or (ev_user event) (ev_bot_id event)
  /\ (w_onSlackMessage w room (set_text msg t) teamId None = Ok tt ->
      run
      = (Ok tt, s,
         ack_prefix ++ counted event
           ++ [EDoChannelUserReplacements msg (ev_text event) client;
               EOnSlackMessage room (set_text msg t) teamId None;
               EEndTimer "success"])).
Proof.
  intros Hack Hty Hsub Hmissing Hpast Hroom Hclient msg Ht run.
  assert (Hrun : handleMessageEvent w event teamId s
                 = (w_onSlackMessage w room (set_text msg t) teamId None, s,
                    counted event
                      ++ [EDoChannelUserReplacements msg (ev_text event) client;
                          EOnSlackMessage room (set_text msg t) teamId None])).
  { rewrite (handleMessageEvent_with_client w event teamId s room client
               Hroom Hclient);
      [| now apply (not_echo event _ "message_changed")
       | now apply (not_topic event "message_changed")].
    cbv zeta. fold msg.
    rewrite (attachments_step_past w room client msg teamId s Hpast).
    rewrite (subtype_step_changed_incomplete w room client msg s Hsub Hmissing).
    rewrite (forward_step_plain w room event msg teamId s client Hclient);
      [| unfold subtype_is; change (base msg) with event; now rewrite Hsub].
    change (base msg) with event. rewrite Ht. reflexivity. }
  destruct (handle_message_quiet w event teamId response s Hack Hty)
    as [Hfw _].
  subst run. rewrite Hfw, Hrun.
  repeat split.
  intro Hfwd. rewrite Hfwd in Hrun.
  rewrite (handle_message_success w event teamId response s _ _
             Hack Hty Hrun).
  reflexivity.
Qed.

(** An edit of which only the envelope arrived. *)
Lemma incomplete_edit_is_forwarded_witness :
  handle Examples.world0
         (Examples.bare "message" (Some "message_changed") (Some "C1")) "T1"
         Examples.ok_response Examples.store0
  = (Ok tt, Examples.store0,
     ack_prefix
       ++ counted (Examples.bare "message" (Some "message_changed")
                                 (Some "C1"))
       ++ [EDoChannelUserReplacements
             (message_copy
                (Examples.bare "message" (Some "message_changed") (Some "C1"))
                Examples.room_acme "T1")
             (Some "hello @bob") "client";
           EOnSlackMessage 0
             (set_text
                (message_copy
                   (Examples.bare "message" (Some "message_changed")
                                  (Some "C1"))
                   Examples.room_acme "T1")
                (Some "hello Bob"))
             "T1" None;
           EEndTimer "success"]).
Proof.
  exact (proj2 (proj2 (proj2
           (incomplete_edit_is_forwarded
              Examples.world0
              (Examples.bare "message" (Some "message_changed") (Some "C1"))
              "T1" Examples.ok_response Examples.store0 0 "client"
              (Some "hello Bob")
              eq_refl eq_refl eq_refl (or_introl eq_refl) eq_refl eq_refl
              eq_refl eq_refl))) eq_refl).
Defined.

(** The run of lines 193 to 208. *)
Lemma message_changed_step_run w room client msg message p s :
  let edited :=
    set_text (set_user_id msg (msg_user message)) (msg_text message) in
  let ask :=
    EDoChannelUserReplacements edited (msg_text (st_msgs s p)) client in
  message_changed_step w room client msg message p s
  = match w_doChannelUserReplacements w edited (msg_text (st_msgs s p))
                                      client with
    | Ok t =>
        (Ok match msg_bot_id message with
            | Some b =>
                if strict_eq (Some b) (SlackBotId (st_rooms s room))
                then Done
                else Next (set_user_id edited (ev_bot_id (base msg)))
            | None => Next edited
            end,
         write_text p t s, [ask])
    | Throw ex => (Throw ex, s, [ask])
    end.
Proof.
  intros edited ask.
  unfold message_changed_step, bind, get_msg, doChannelUserReplacements,
    set_msg_text, get_room, call, ret.
  fold edited. fold ask.
  destruct (w_doChannelUserReplacements w edited (msg_text (st_msgs s p))
                                         client) as [t | ex];
    [| reflexivity].
  destruct (msg_bot_id message) as [b |]; [| reflexivity].
  cbn [st_rooms write_text].
  destruct (strict_eq (Some b) (SlackBotId (st_rooms s room))); reflexivity.
Qed.

(** C6 on the code.  A message event with subtype [message_changed] that
    carries the edited message and the previous one and gets past the
    attachments, in a bridged channel whose room has a client; the edited
    message names a bot and the mention resolver has answered for the
    previous text.  When the bot is the room's own, nothing is forwarded.
    When it is another, the message is forwarded once, and its [user_id] is
    the [bot_id] of the event itself (line 206 reads [msg.bot_id]), not the
    one of the edited message. *)
Theorem edit_by_bot_takes_the_event_bot_id
    w event teamId response s room client message p b t1 :
  response HTTP_OK (Some "OK") = Ok tt ->
  ev_type event = "message" ->
  ev_subtype event = Some "message_changed" ->
  ev_message event = Some message ->
  ev_previous_message event = Some p ->
  past_attachments event = true ->
  w_getRoomBySlackChannelId w (ev_channel event) = Ok (Some room) ->
  SlackClient (st_rooms s room) = Some client ->
  msg_bot_id message = Some b ->
  let msg := message_copy event (st_rooms s room) teamId in
  let edited :=
    set_text (set_user_id msg (msg_user message)) (msg_text message) in
  let by_bot := set_user_id edited (ev_bot_id event) in
  w_doChannelUserReplacements w edited (msg_text (st_msgs s p)) client
  = Ok t1 ->
  let run := handle w event teamId response s in
  (strict_eq (Some b) (SlackBotId (st_rooms s room)) = true ->
   forwards (trace_of run) = [])
  /\ (strict_eq (Some b) (SlackBotId (st_rooms s room)) = false ->
      forall t2,
        w_doChannelUserReplacements w by_bot (msg_text message) client
        = Ok t2 ->
        forwards (trace_of run)
        = [EOnSlackMessage room (set_text by_bot t2) teamId None]
        /\ user_id (set_text by_bot t2) = ev_bot_id event).
Proof.
  intros Hack Hty Hsub Hmsg Hprev Hpast Hroom Hclient Hbot
         msg edited by_bot Ht1 run.
  destruct (handle_message_quiet w event teamId response s Hack Hty)
    as [Hfw _].
  subst run. rewrite Hfw. clear Hfw.
  rewrite (handleMessageEvent_with_client w event teamId s room client
             Hroom Hclient);
    [| now apply (not_echo event _ "message_changed")
     | now apply (not_topic event "message_changed")].
  cbv zeta. fold msg.
  rewrite (attachments_step_past w room client msg teamId s Hpast).
  rewrite (subtype_step_changed w room client msg s message p Hsub Hmsg Hprev).
  rewrite message_changed_step_run. cbv zeta. fold edited.
  rewrite Ht1, Hbot. change (base msg) with event. fold by_bot.
  split.
  - intro Hown. rewrite Hown. reflexivity.
  - intros Hother t2 Ht2. rewrite Hother.
    rewrite (forward_step_plain w room event by_bot teamId _ client);
      [| exact Hclient
       | unfold subtype_is; change (base by_bot)
           with (base edited); cbn; now rewrite Hsub].
    change (ev_text (base by_bot)) with (msg_text message).
    rewrite Ht2.
    destruct (w_onSlackMessage w room (set_text by_bot t2) teamId None);
      split; reflexivity.
Qed.

(** The bot B2 edits a message in C1; the event itself names no bot, and
    the forwarded message has no [user_id]. *)
Lemma edit_by_bot_takes_the_event_bot_id_witness :
  msg_bot_id
    {| msg_channel := None; msg_user := Some "U1"; msg_bot_id := Some "B2";
       msg_text := Some "hello bob" |} = Some "B2"
  /\ exists m,
       forwards
         (trace_of (handle Examples.world0 (Examples.edit_event (Some "B2"))
                           "T1" Examples.ok_response Examples.store0))
       = [EOnSlackMessage 0 m "T1" None]
       /\ user_id m = None.
Proof.
  split; [reflexivity |].
  eexists.
  exact (proj2 (edit_by_bot_takes_the_event_bot_id
                  Examples.world0 (Examples.edit_event (Some "B2")) "T1"
                  Examples.ok_response Examples.store0 0 "client"
                  {| msg_channel := None; msg_user := Some "U1";
                     msg_bot_id := Some "B2"; msg_text := Some "hello bob" |}
                  0 "B2" (Some "hello Bob")
                  eq_refl eq_refl eq_refl eq_refl eq_refl eq_refl eq_refl
                  eq_refl eq_refl eq_refl)
               eq_refl (Some "hello bob") eq_refl).
Defined.

(** ** Attachments *)

(** The run of lines 177 to 187 on a list of attachments that is not
    empty: only its head is read. *)
Lemma attachments_step_first w room client msg teamId s a rest :
  ev_attachments (base msg) = Some (a :: rest) ->
  let first := set_text msg (fallback a) in
  attachments_step w room client msg teamId s
  = match w_doChannelUserReplacements w first (fallback a) client with
    | Ok t =>
        (match w_onSlackMessage w room (set_text first t) teamId None with
         | Ok _ => Ok true
         | Throw ex => Throw ex
         end, s,
         [EDoChannelUserReplacements first (fallback a) client;
          EOnSlackMessage room (set_text first t) teamId None])
    | Throw ex =>
        (Throw ex, s, [EDoChannelUserReplacements first (fallback a) client])
    end.
Proof.
  intros Hatt first.
  unfold attachments_step, bind, doChannelUserReplacements, onSlackMessage,
    call, ret.
  rewrite Hatt. fold first.
  change (ev_text (base first)) with (fallback a).
  destruct (w_doChannelUserReplacements w first (fallback a) client)
    as [t | ex]; [| reflexivity].
  destruct (w_onSlackMessage w room (set_text first t) teamId None)
    as [[] | ex]; reflexivity.
Qed.

Lemma attachments_step_empty w room client msg teamId s :
  ev_attachments (base msg) = Some [] ->
  ev_text (base msg) = Some "" ->
  attachments_step w room client msg teamId s = (Ok true, s, []).
Proof.
  intros Hatt Htext. unfold attachments_step. rewrite Hatt, Htext.
  reflexivity.
Qed.

(** C7, as the code has it.  A message event in a bridged channel whose
    room has a client, not the bridge's own message and not a topic.  When
    its list of attachments is not empty, the text becomes the fallback of
    the first attachment, the mention resolver is asked for it, and its
    answer, whatever it is, is forwarded once by [onSlackMessage]; the other
    attachments are not read; when that call returns, the outcome is success.
    When the list is there but empty and the event's own text is the empty
    string, the handler returns after the count: nothing is forwarded and
    the outcome is success. *)
Theorem first_attachment_is_forwarded
    w event teamId response s room client :
  response HTTP_OK (Some "OK") = Ok tt ->
  ev_type event = "message" ->
  w_getRoomBySlackChannelId w (ev_channel event) = Ok (Some room) ->
  SlackClient (st_rooms s room) = Some client ->
  is_echo event (st_rooms s room) = false ->
  is_topic event = false ->
  let msg := message_copy event (st_rooms s room) teamId in
  let run := handle w event teamId response s in
  (forall a rest t,
     ev_attachments event = Some (a :: rest) ->
     let first := set_text msg (fallback a) in
     w_doChannelUserReplacements w first (fallback a) client = Ok t ->
     forwards (trace_of run)
     = [EOnSlackMessage room (set_text first t) teamId None]
     /\ (w_onSlackMessage w room (set_text first t) teamId None = Ok tt ->
         run
         = (Ok tt, s,
            ack_prefix ++ counted event
              ++ [EDoChannelUserReplacements first (fallback a) client;
                  EOnSlackMessage room (set_text first t) teamId None;
                  EEndTimer "success"])))
  /\ (ev_attachments event = Some [] ->
      ev_text event = Some "" ->
      run = (Ok tt, s, ack_prefix ++ counted event ++ [EEndTimer "success"])).
Proof.
  intros Hack Hty Hroom Hclient Hecho Htopic msg run.
  destruct (handle_message_quiet w event teamId response s Hack Hty)
    as [Hfw _].
  pose proof (handleMessageEvent_with_client w event teamId s room client
                Hroom Hclient Hecho Htopic) as Hrun.
  cbv zeta in Hrun. fold msg in Hrun.
  subst run. split.
  - intros a rest t Hatt first Ht.
    rewrite (attachments_step_first w room client msg teamId s a rest Hatt)
      in Hrun.
    cbv zeta in Hrun. fold first in Hrun. rewrite Ht in Hrun.
    split.
    + rewrite Hfw, Hrun.
      destruct (w_onSlackMessage w room (set_text first t) teamId None)
        as [[] | ex]; reflexivity.
    + intro Hfwd. rewrite Hfwd in Hrun.
      rewrite (handle_message_success w event teamId response s _ _
                 Hack Hty Hrun).
      reflexivity.
  - intros Hatt Htext.
    rewrite (attachments_step_empty w room client msg teamId s Hatt Htext)
      in Hrun.
    rewrite (handle_message_success w event teamId response s _ _
               Hack Hty Hrun).
    reflexivity.
Qed.

(** Two attachments, of which the first is forwarded; and an empty list
    with an empty text, which is dropped. *)
Lemma first_attachment_is_forwarded_witness :
  forwards
    (trace_of
       (handle Examples.world0
               (Examples.attached_event
                  [ {| fallback := Some "hello @bob" |};
                    {| fallback := Some "never read" |} ] (Some "text"))
               "T1" Examples.ok_response Examples.store0))
  = [EOnSlackMessage 0
       (set_text
          (set_text
             (message_copy
                (Examples.attached_event
                   [ {| fallback := Some "hello @bob" |};
                     {| fallback := Some "never read" |} ] (Some "text"))
                Examples.room_acme "T1")
             (Some "hello @bob"))
          (Some "hello Bob"))
       "T1" None]
  /\ handle Examples.world0 (Examples.attached_event [] (Some "")) "T1"
            Examples.ok_response Examples.store0
     = (Ok tt, Examples.store0,
        ack_prefix ++ counted (Examples.attached_event [] (Some ""))
          ++ [EEndTimer "success"]).
Proof.
  split.
  - exact (proj1 (proj1 (first_attachment_is_forwarded
                    Examples.world0
                    (Examples.attached_event
                       [ {| fallback := Some "hello @bob" |};
                         {| fallback := Some "never read" |} ] (Some "text"))
                    "T1" Examples.ok_response Examples.store0 0 "client"
                    eq_refl eq_refl eq_refl eq_refl eq_refl eq_refl)
                 _ _ (Some "hello Bob") eq_refl eq_refl)).
  - exact (proj2 (first_attachment_is_forwarded
                    Examples.world0 (Examples.attached_event [] (Some ""))
                    "T1" Examples.ok_response Examples.store0 0 "client"
                    eq_refl eq_refl eq_refl eq_refl eq_refl eq_refl)
                 eq_refl eq_refl).
Defined.

(** C7 as it is specified fails: a message in C1 whose only attachment
    has the empty string as fallback, which the mention resolver leaves as
    it is, is not dropped but forwarded, with the empty string as text. *)
Lemma empty_fallback_is_forwarded :
  w_doChannelUserReplacements Examples.world0
    (set_text
       (message_copy
          (Examples.attached_event [ {| fallback := Some "" |} ] (Some "x"))
          Examples.room_acme "T1")
       (Some ""))
    (Some "") "client"
  = Ok (Some "")
  /\ exists m,
       forwards
         (trace_of
            (handle Examples.world0
                    (Examples.attached_event [ {| fallback := Some "" |} ]
                                             (Some "x"))
                    "T1" Examples.ok_response Examples.store0))
       = [EOnSlackMessage 0 m "T1" None]
       /\ ev_text (base m) = Some "".
Proof. split; [reflexivity |]. eexists. split; reflexivity. Qed.

(** ** The change of a team's domain *)

Lemma upd_same {A : Type} (f : nat -> A) k v : upd f k v k = v.
Proof. unfold upd. now rewrite Nat.eqb_refl. Qed.

Lemma upd_other {A : Type} (f : nat -> A) k v k' :
  k' <> k -> upd f k v k' = f k'.
Proof.
  intro H. unfold upd. destruct (Nat.eqb k' k) eqn:E; [| reflexivity].
  apply Nat.eqb_eq in E. contradiction.
Qed.

Lemma domain_change_one_run w event room s :
  domain_change_one w event room s
  = let new := with_domain w (ev_domain event) (st_rooms s room) in
    let s' := {| st_rooms := upd (st_rooms s) room new;
                 st_msgs := st_msgs s |} in
    if isDirty new
    then (w_upsertRoom w room new, s', [EUpsertRoom room])
    else (Ok tt, s', []).
Proof.
  unfold domain_change_one, set_SlackTeamDomain, assign, bind, get_room,
    upsertRoom, ret.
  fold (with_domain w (ev_domain event) (st_rooms s room)).
  cbn [st_rooms]. rewrite !upd_same.
  destruct (isDirty (with_domain w (ev_domain event) (st_rooms s room)));
    [| reflexivity].
  cbn [st_rooms app]. rewrite upd_same. reflexivity.
Qed.

Lemma promise_all_map_cons {A : Type} (f : A -> M unit) x xs s :
  store_of (promise_all_map f (x :: xs) s)
  = store_of (promise_all_map f xs (store_of (f x s)))
  /\ trace_of (promise_all_map f (x :: xs) s)
     = trace_of (f x s)
         ++ trace_of (promise_all_map f xs (store_of (f x s))).
Proof.
  cbn [promise_all_map].
  destruct (f x s) as [[r1 s1] t1]. cbn [store_of fst snd].
  destruct (promise_all_map f xs s1) as [[r2 s2] t2].
  split; reflexivity.
Qed.

Lemma domain_change_one_store w event room s :
  store_of (domain_change_one w event room s)
  = {| st_rooms := upd (st_rooms s) room
                     (with_domain w (ev_domain event) (st_rooms s room));
       st_msgs := st_msgs s |}.
Proof.
  rewrite domain_change_one_run. cbv zeta.
  destruct (isDirty _); reflexivity.
Qed.

Lemma domain_change_one_upserted w event room s :
  upserted (trace_of (domain_change_one w event room s))
  = if isDirty (with_domain w (ev_domain event) (st_rooms s room))
    then [room] else [].
Proof.
  rewrite domain_change_one_run. cbv zeta.
  destruct (isDirty _); reflexivity.
Qed.

(** The fan-out over rooms that are pairwise distinct: every room of the
    list is assigned, no other room is touched, and [upsertRoom] is called
    for the rooms that are dirty once assigned, in the order of the list,
    whatever the earlier calls answered. *)
Lemma domain_change_all w event rooms :
  NoDup rooms ->
  forall s,
    let run := promise_all_map (domain_change_one w event) rooms s in
    (forall room, In room rooms ->
       st_rooms (store_of run) room
       = with_domain w (ev_domain event) (st_rooms s room))
    /\ (forall room, ~ In room rooms ->
          st_rooms (store_of run) room = st_rooms s room)
    /\ upserted (trace_of run)
       = filter (fun room =>
                   isDirty (with_domain w (ev_domain event) (st_rooms s room)))
                rooms.
Proof.
  induction 1 as [| room rooms Hnotin Hnodup IH]; intro s; cbv zeta.
  - cbn. repeat split; intros; try contradiction; reflexivity.
  - destruct (promise_all_map_cons (domain_change_one w event) room rooms s)
      as [Hstore Htrace].
    rewrite Hstore, Htrace. clear Hstore Htrace.
    rewrite domain_change_one_store.
    set (new := with_domain w (ev_domain event) (st_rooms s room)).
    set (s' := {| st_rooms := upd (st_rooms s) room new;
                  st_msgs := st_msgs s |}).
    destruct (IH s') as (Hin & Hout & Hups).
    assert (Hrest : forall r, In r rooms -> st_rooms s' r = st_rooms s r).
    { intros r Hr. unfold s'. cbn. apply upd_other.
      intro E. subst r. contradiction. }
    split; [| split].
    + intros r [E | Hr].
      * subst r. rewrite (Hout room Hnotin). unfold s'. cbn.
        apply upd_same.
      * rewrite (Hin r Hr), (Hrest r Hr). reflexivity.
    + intros r Hr. rewrite Hout by (intro; apply Hr; now right).
      unfold s'. cbn. apply upd_other. intro E. apply Hr. now left.
    + unfold upserted at 1. rewrite flat_map_app.
      fold (upserted (trace_of (domain_change_one w event room s))).
      fold (upserted
              (trace_of (promise_all_map (domain_change_one w event) rooms s'))).
      rewrite domain_change_one_upserted, Hups. fold new.
      cbn [filter].
      rewrite (filter_ext_in _
                 (fun r => isDirty
                             (with_domain w (ev_domain event) (st_rooms s r)))).
      * unfold new.
        destruct (isDirty (with_domain w (ev_domain event) (st_rooms s room)));
          reflexivity.
      * intros r Hr. rewrite (Hrest r Hr). reflexivity.
Qed.

(** C8.  For a change of domain and the rooms the registry gives for the
    team, none, one or many (each room once): the handler assigns the new
    domain to every one of them, so that each ends as it was right after
    its assignment, with the new domain; no other room has changed; and
    [upsertRoom] was called for the rooms that reported dirty after their
    assignment, once each and in the order of the list, and for no other
    room, also when some of these calls fail. *)
Theorem domain_change_updates_every_room w event teamId s rooms :
  w_getRoomsBySlackTeamId w teamId = Ok rooms ->
  NoDup rooms ->
  let run := handleDomainChangeEvent w event teamId s in
  let after_assignment room :=
    with_domain w (ev_domain event) (st_rooms s room) in
  (forall room, In room rooms ->
     st_rooms (store_of run) room = after_assignment room
     /\ SlackTeamDomain (st_rooms (store_of run) room) = ev_domain event)
  /\ (forall room, ~ In room rooms ->
        st_rooms (store_of run) room = st_rooms s room)
  /\ upserted (trace_of run)
     = filter (fun room => isDirty (after_assignment room)) rooms.
Proof.
  intros Hrooms Hnodup run after_assignment.
  pose proof (domain_change_all w event rooms Hnodup s) as Hall.
  cbv zeta in Hall.
  assert (Hrun : run
                 = let inner :=
                     promise_all_map (domain_change_one w event) rooms s in
                   (result inner, store_of inner,
                    EGetRoomsBySlackTeamId teamId :: trace_of inner)).
  { unfold run.
    change (handleDomainChangeEvent w event teamId)
      with (bind (getRoomsBySlackTeamId w teamId)
                 (promise_all_map (domain_change_one w event))).
    unfold bind, getRoomsBySlackTeamId, call. rewrite Hrooms. cbv zeta.
    destruct (promise_all_map (domain_change_one w event) rooms s)
      as [[r2 s2] t2].
    reflexivity. }
  rewrite Hrun. cbv zeta. cbn [store_of trace_of fst snd].
  destruct Hall as (Hin & Hout & Hups).
  split; [| split].
  - intros room Hroom. rewrite (Hin room Hroom). split; reflexivity.
  - exact Hout.
  - change (upserted (EGetRoomsBySlackTeamId teamId :: ?t))
      with (upserted t).
    exact Hups.
Qed.

(** Team T1 has three rooms; two of them still carry the old domain and
    are dirty once assigned, the third carried the new domain already: two
    calls of [upsertRoom], and three rooms with the new domain. *)
Lemma domain_change_updates_every_room_witness :
  (forall room, In room [0; 1; 2] ->
     SlackTeamDomain
       (st_rooms
          (store_of (handleDomainChangeEvent Examples.world0
                       Examples.domain_event "T1" Examples.store0)) room)
     = Some "newacme")
  /\ upserted
       (trace_of (handleDomainChangeEvent Examples.world0
                    Examples.domain_event "T1" Examples.store0))
     = [0; 1].
Proof.
  assert (Hnodup : NoDup [0; 1; 2]).
  { repeat constructor; cbn; lia. }
  pose proof (domain_change_updates_every_room
                Examples.world0 Examples.domain_event "T1" Examples.store0
                [0; 1; 2] eq_refl Hnodup) as H.
  cbv zeta in H. destruct H as (Hin & _ & Hups).
  split; [intros room Hroom; exact (proj2 (Hin room Hroom)) | exact Hups].
Defined.

(** ** Events without a handler *)

(** An event of a type outside [SUPPORTED_EVENTS] reaches no handler: the
    switch makes no call and leaves "unknown_event" in [err]. *)
Lemma dispatch_unsupported w event teamId s :
  ~ In (ev_type event) SUPPORTED_EVENTS ->
  dispatch w event teamId s = (Ok (VStr "unknown_event"), s, []).
Proof.
  intro Hnot. unfold dispatch.
  assert (Hne : forall lit, In lit SUPPORTED_EVENTS ->
                            (ev_type event =? lit) = false).
  { intros lit Hin. apply String.eqb_neq. intro E. apply Hnot.
    rewrite E. exact Hin. }
  rewrite !Hne by (cbn; tauto). reflexivity.
Qed.

(** ** A plain message *)

(** The message "hello @bob" of U1 in C1, the mention resolver knowing bob:
    counted once, forwarded once as "hello Bob", outcome success. *)
Example plain_message_is_forwarded :
  handle Examples.world0 (Examples.bare "message" None (Some "C1")) "T1"
         Examples.ok_response Examples.store0
  = (Ok tt, Examples.store0,
     [ELog LDebug "Received slack event:" None;
      EStartTimer "remote_request_seconds";
      ERespond 200 (Some "OK");
      EGetRoomBySlackChannelId (Some "C1");
      EIncCounter "received_messages" "remote";
      EDoChannelUserReplacements
        (message_copy (Examples.bare "message" None (Some "C1"))
                      Examples.room_acme "T1")
        (Some "hello @bob") "client";
      EOnSlackMessage 0
        (set_text (message_copy (Examples.bare "message" None (Some "C1"))
                                Examples.room_acme "T1")
                  (Some "hello Bob"))
        "T1" None;
      EEndTimer "success"]).
Proof. reflexivity. Qed.

(** A removed reaction is parsed and not forwarded; the outcome is
    success. *)
Example removed_reaction_is_not_forwarded :
  trace_of
    (handle Examples.world0
       {| ev_type := "reaction_removed"; ev_channel := None;
          ev_user := Some "U1"; ev_bot_id := None; ev_subtype := None;
          ev_text := None; ev_attachments := None; ev_comment := None;
          ev_message := None; ev_previous_message := None;
          ev_deleted_ts := None; ev_file := None;
          ev_item := Some {| msg_channel := Some "C1"; msg_user := None;
                             msg_bot_id := None; msg_text := None |};
          ev_id := None; ev_name := None; ev_domain := None |}
       "T1" Examples.ok_response Examples.store0)
  = [ELog LDebug "Received slack event:" None;
     EStartTimer "remote_request_seconds";
     ERespond 200 (Some "OK");
     EGetRoomBySlackChannelId (Some "C1");
     EEndTimer "success"].
Proof. reflexivity. Qed.

(** * Further properties of the handlers *)

(** ** What a handler calls and what it writes *)

(** The calls the handlers make: the registry, the rooms, the datastore,
    the mention resolver, the file gateway, the redaction, the count of a
    message and a warning.  Not among them: the response callback, the
    timer, a debug or an error line. *)
Definition handler_call (e : Effect) : bool :=
  match e with
  | ERespond _ _ => false
  | EStartTimer _ => false
  | EEndTimer _ => false
  | ELog LWarn _ _ => true
  | ELog _ _ _ => false
  | _ => true
  end.

Definition is_count (e : Effect) : bool :=
  match e with
  | EIncCounter _ _ => true
  | _ => false
  end.

(** A call of a handler other than the count of a message. *)
Definition quiet_call (e : Effect) : bool :=
  handler_call e && negb (is_count e).

(** How often a message was counted. *)
Definition counts (t : Trace) : nat := length (filter is_count t).

(** The outcomes the timer was ended with, in the order of the calls. *)
Definition outcomes (t : Trace) : list string :=
  flat_map (fun e => match e with
                     | EEndTimer outcome => [outcome]
                     | _ => []
                     end) t.

(** What [err] holds after the inner [try]. *)
Definition caught (x : Result JsVal * Store * Trace) : JsVal :=
  match result x with
  | Ok err => err
  | Throw ex => ex
  end.

(** Every call in between passes the test. *)
Definition only (ok : Effect -> bool) : Invariant.
Proof.
  refine {| holds := fun _ _ t => forallb ok t = true |}.
  - intros _. reflexivity.
  - intros _ _ _ t1 t2 H1 H2. rewrite forallb_app, H1, H2. reflexivity.
Defined.

(** The rooms are as they were. *)
Definition rooms_kept : Invariant.
Proof.
  refine {| holds := fun s s' _ => st_rooms s' = st_rooms s |}.
  - intros s. reflexivity.
  - intros s1 s2 s3 _ _ H1 H2. congruence.
Defined.

(** A rule of [keeps] by the shape of the computation; a call, and a
    write, is left to the invariant at hand. *)
Ltac frame_step :=
  lazymatch goal with
  | |- keeps _ (bind _ _) => apply keeps_bind; [| intro]
  | |- keeps _ (ret _) => apply keeps_ret
  | |- keeps _ (throw _) => apply keeps_throw
  | |- keeps _ (get_room _) => apply keeps_get_room
  | |- keeps _ (get_msg _) => apply keeps_get_msg
  | |- keeps _ (try_catch _ _) => apply keeps_try_catch; [| intro]
  | |- keeps _ (attempt _) => apply keeps_attempt
  | |- keeps _ (promise_all_map _ _) => apply keeps_promise_all_map; intro
  | |- keeps _ (call _ _) => intro; reflexivity
  | |- keeps _ (emit _) => intro; reflexivity
  | |- keeps _ (upsertRoom _ _) => intro; reflexivity
  | |- keeps _ (assign _ _ _) => intro; reflexivity
  | |- keeps _ (set_msg_text _ _) => intro; reflexivity
  | |- keeps _ (match ?x with _ => _ end) => destruct x eqn:?
  end.

Ltac frame_all := autounfold with calls; repeat frame_step.

Lemma only_weaken (a b : Effect -> bool) {A : Type} (m : M A) :
  (forall e, a e = true -> b e = true) ->
  keeps (only a) m -> keeps (only b) m.
Proof.
  intros Hab Hm s. specialize (Hm s). cbn in *.
  rewrite forallb_forall in *. intros e He. apply Hab, Hm, He.
Qed.

Lemma quiet_is_handler_call e : quiet_call e = true -> handler_call e = true.
Proof. unfold quiet_call. intro H. apply andb_prop in H. tauto. Qed.

Section FrameHandlers.

Variable w : World.

Lemma attachments_step_quiet room client msg teamId :
  keeps (only quiet_call) (attachments_step w room client msg teamId).
Proof. unfold attachments_step. frame_all. Qed.

Lemma subtype_step_quiet room client msg :
  keeps (only quiet_call) (subtype_step w room client msg).
Proof.
  unfold subtype_step, message_changed_step, message_deleted_step.
  frame_all.
Qed.

Lemma forward_step_quiet room event msg teamId :
  keeps (only quiet_call) (forward_step w room event msg teamId).
Proof. unfold forward_step, file_share_step. frame_all. Qed.

Lemma handleMessageEvent_calls event teamId :
  keeps (only handler_call) (handleMessageEvent w event teamId).
Proof.
  unfold handleMessageEvent, attachments_step, subtype_step,
    message_changed_step, message_deleted_step, forward_step,
    file_share_step.
  frame_all.
Qed.

Lemma handleReaction_quiet event teamId :
  keeps (only quiet_call) (handleReaction w event teamId).
Proof. unfold handleReaction. frame_all. Qed.

Lemma handleDomainChangeEvent_quiet event teamId :
  keeps (only quiet_call) (handleDomainChangeEvent w event teamId).
Proof. unfold handleDomainChangeEvent. frame_all. Qed.

Lemma handleChannelRenameEvent_quiet event :
  keeps (only quiet_call) (handleChannelRenameEvent w event).
Proof. unfold handleChannelRenameEvent. frame_all. Qed.

Lemma handleTyping_quiet event teamId :
  keeps (only quiet_call) (handleTyping w event teamId).
Proof. unfold handleTyping. frame_all. Qed.

Lemma handleMessageEvent_rooms event teamId :
  keeps rooms_kept (handleMessageEvent w event teamId).
Proof.
  unfold handleMessageEvent, attachments_step, subtype_step,
    message_changed_step, message_deleted_step, forward_step,
    file_share_step.
  frame_all.
Qed.

Lemma handleReaction_rooms event teamId :
  keeps rooms_kept (handleReaction w event teamId).
Proof. unfold handleReaction. frame_all. Qed.

Lemma handleTyping_rooms event teamId :
  keeps rooms_kept (handleTyping w event teamId).
Proof. unfold handleTyping. frame_all. Qed.

End FrameHandlers.

(** More to run the handler on. *)
Module MoreExamples.

(** The bridge of [Examples.world0], but every forward of a message is
    rejected with the string given. *)
Definition rejecting (reason : string) : World :=
  {| w_getRoomBySlackChannelId :=
       w_getRoomBySlackChannelId Examples.world0;
     w_getRoomsBySlackTeamId := w_getRoomsBySlackTeamId Examples.world0;
     w_onSlackMessage := fun _ _ _ _ => Throw (VStr reason);
     w_onSlackTopic := w_onSlackTopic Examples.world0;
     w_onSlackReactionAdded := w_onSlackReactionAdded Examples.world0;
     w_onSlackTyping := w_onSlackTyping Examples.world0;
     w_doChannelUserReplacements :=
       w_doChannelUserReplacements Examples.world0;
     w_enablePublicSharing := w_enablePublicSharing Examples.world0;
     w_fetchFileContent := w_fetchFileContent Examples.world0;
     w_getEventBySlackId := w_getEventBySlackId Examples.world0;
     w_redactEvent := w_redactEvent Examples.world0;
     w_upsertRoom := w_upsertRoom Examples.world0;
     w_dirtyAfterSet := w_dirtyAfterSet Examples.world0 |}.

(** The bridge of [Examples.world0], but the datastore rejects the upsert
    of room 0. *)
Definition failing_upsert : World :=
  {| w_getRoomBySlackChannelId :=
       w_getRoomBySlackChannelId Examples.world0;
     w_getRoomsBySlackTeamId := w_getRoomsBySlackTeamId Examples.world0;
     w_onSlackMessage := w_onSlackMessage Examples.world0;
     w_onSlackTopic := w_onSlackTopic Examples.world0;
     w_onSlackReactionAdded := w_onSlackReactionAdded Examples.world0;
     w_onSlackTyping := w_onSlackTyping Examples.world0;
     w_doChannelUserReplacements :=
       w_doChannelUserReplacements Examples.world0;
     w_enablePublicSharing := w_enablePublicSharing Examples.world0;
     w_fetchFileContent := w_fetchFileContent Examples.world0;
     w_getEventBySlackId := w_getEventBySlackId Examples.world0;
     w_redactEvent := w_redactEvent Examples.world0;
     w_upsertRoom := fun room _ =>
       if Nat.eqb room 0 then Throw (VError "database is gone") else Ok tt;
     w_dirtyAfterSet := w_dirtyAfterSet Examples.world0 |}.

(** The bridge of [Examples.world0], but files cannot be made public. *)
Definition private_files : World :=
  {| w_getRoomBySlackChannelId :=
       w_getRoomBySlackChannelId Examples.world0;
     w_getRoomsBySlackTeamId := w_getRoomsBySlackTeamId Examples.world0;
     w_onSlackMessage := w_onSlackMessage Examples.world0;
     w_onSlackTopic := w_onSlackTopic Examples.world0;
     w_onSlackReactionAdded := w_onSlackReactionAdded Examples.world0;
     w_onSlackTyping := w_onSlackTyping Examples.world0;
     w_doChannelUserReplacements :=
       w_doChannelUserReplacements Examples.world0;
     w_enablePublicSharing := fun _ _ => Throw (VError "not_allowed");
     w_fetchFileContent := w_fetchFileContent Examples.world0;
     w_getEventBySlackId := w_getEventBySlackId Examples.world0;
     w_redactEvent := w_redactEvent Examples.world0;
     w_upsertRoom := w_upsertRoom Examples.world0;
     w_dirtyAfterSet := w_dirtyAfterSet Examples.world0 |}.

(** The room of [Examples.room_acme] as it is without a client. *)
Definition room_without_client : BridgedRoom :=
  {| SlackChannelId := Some "C1"; SlackChannelName := Some "acme.#general";
     SlackTeamId := Some "T1"; SlackTeamDomain := None;
     SlackBotId := Some "B1"; SlackClient := None; isDirty := false |}.

Definition store_without_client : Store :=
  {| st_rooms := fun _ => room_without_client;
     st_msgs := fun _ => Examples.snapshot |}.

(** An event of the given type on the item, the channel id and the name
    given. *)
Definition other (type : string) (channel : option string)
    (item : option ISlackMessage) (id name : option string) : SlackEvent :=
  {| ev_type := type; ev_channel := channel; ev_user := Some "U1";
     ev_bot_id := None; ev_subtype := None; ev_text := None;
     ev_attachments := None; ev_comment := None; ev_message := None;
     ev_previous_message := None; ev_deleted_ts := None; ev_file := None;
     ev_item := item; ev_id := id; ev_name := name; ev_domain := None |}.

(** A message of U1 in C1 with the subtype, comment and file given. *)
Definition message (subtype : option string) (comment : option Comment)
    (file : option ISlackFile) : SlackEvent :=
  {| ev_type := "message"; ev_channel := Some "C1"; ev_user := Some "U1";
     ev_bot_id := None; ev_subtype := subtype;
     ev_text := Some "hello @bob"; ev_attachments := None;
     ev_comment := comment; ev_message := None;
     ev_previous_message := None; ev_deleted_ts := Some "100";
     ev_file := file; ev_item := None; ev_id := None; ev_name := None;
     ev_domain := None |}.

End MoreExamples.

(** ** The timer *)

Lemma outcomes_app (t1 t2 : Trace) :
  outcomes (t1 ++ t2) = outcomes t1 ++ outcomes t2.
Proof. apply flat_map_app. Qed.

Lemma handler_calls_end_no_timer (t : Trace) :
  forallb handler_call t = true -> outcomes t = [].
Proof.
  induction t as [| e t IH]; [reflexivity |].
  cbn [forallb]. intro H. apply andb_prop in H. destruct H as [He Ht].
  change (e :: t) with ([e] ++ t).
  rewrite outcomes_app, (IH Ht), app_nil_r.
  destruct e; try reflexivity; discriminate.
Qed.

(** The handlers below the switch make handler calls only. *)
Lemma dispatch_calls w event teamId :
  keeps (only handler_call) (dispatch w event teamId).
Proof.
  unfold dispatch.
  repeat match goal with
         | |- keeps _ (if ?b then _ else _) => destruct b
         end;
    try apply keeps_ret;
    (apply keeps_bind; [| intro; apply keeps_ret]).
  - apply handleMessageEvent_calls.
  - apply (only_weaken quiet_call); [exact quiet_is_handler_call |].
    apply handleReaction_quiet.
  - apply (only_weaken quiet_call); [exact quiet_is_handler_call |].
    apply handleChannelRenameEvent_quiet.
  - apply (only_weaken quiet_call); [exact quiet_is_handler_call |].
    apply handleDomainChangeEvent_quiet.
  - apply (only_weaken quiet_call); [exact quiet_is_handler_call |].
    apply handleTyping_quiet.
Qed.

Lemma record_outcome_outcome event teamId err s :
  exists o,
    outcomes (trace_of (record_outcome event teamId err s)) = [o]
    /\ (o = "success" \/ o = "dropped" \/ o = "fail")
    /\ (o = "success" <-> is_null err = true).
Proof.
  unfold record_outcome.
  destruct err as [| | str | message]; cbn [is_str is_null].
  - exists "success". cbn. intuition.
  - exists "fail". cbn. intuition discriminate.
  - destruct (str =? "unknown_channel").
    + exists "dropped". cbn. intuition discriminate.
    + destruct (str =? "unknown_event").
      * exists "dropped". cbn. intuition discriminate.
      * exists "fail". cbn. intuition discriminate.
  - exists "fail". cbn. intuition discriminate.
Qed.

(** X1.  Once the response callback has returned, the timer started by
    [handle] is ended exactly once, whatever the event and whatever the
    handlers and the rest of the bridge do: with outcome success, dropped
    or fail, and with success exactly when the switch left [null] in [err]
    (no handler threw, or one threw [null]).  When the response callback
    throws, the timer is never ended. *)
Theorem timer_is_ended_once w event teamId response s :
  match response HTTP_OK (Some "OK") with
  | Ok _ =>
      exists o,
        outcomes (trace_of (handle w event teamId response s)) = [o]
        /\ (o = "success" \/ o = "dropped" \/ o = "fail")
        /\ (o = "success"
            <-> is_null (caught (dispatch w event teamId s)) = true)
  | Throw _ => outcomes (trace_of (handle w event teamId response s)) = []
  end.
Proof.
  destruct (response HTTP_OK (Some "OK")) as [[] | ex] eqn:Hack.
  - rewrite (handle_of_dispatch w event teamId response s Hack).
    pose proof (dispatch_calls w event teamId s) as Hcalls.
    unfold caught.
    destruct (dispatch w event teamId s) as [[[err | thrown] s1] t1];
      cbn [trace_of store_of result fst snd holds only] in *.
    + destruct (record_outcome_outcome event teamId err s1)
        as (o & Ho & Hlabel & Hnull).
      exists o. rewrite !outcomes_app, Ho.
      rewrite (handler_calls_end_no_timer t1 Hcalls).
      repeat split; tauto.
    + destruct (record_outcome_outcome event teamId thrown s1)
        as (o & Ho & Hlabel & Hnull).
      exists o. rewrite !outcomes_app.
      change (outcomes (ELog LWarn "Didn't handle event:" (Some thrown)
                          :: ?t)) with (outcomes t).
      rewrite Ho, (handler_calls_end_no_timer t1 Hcalls).
      repeat split; tauto.
  - rewrite handle_run, Hack. reflexivity.
Qed.

(** ** Events without a handler, and the string "unknown_channel" *)

(** The type of the event is one [handle] has a handler for. *)
Definition supported (event : SlackEvent) : bool :=
  existsb (String.eqb (ev_type event)) SUPPORTED_EVENTS.

Lemma unsupported_not_in event :
  supported event = false -> ~ In (ev_type event) SUPPORTED_EVENTS.
Proof.
  unfold supported. intros H Hin.
  assert (Hex : existsb (String.eqb (ev_type event)) SUPPORTED_EVENTS = true).
  { apply existsb_exists. exists (ev_type event).
    split; [exact Hin | apply String.eqb_refl]. }
  congruence.
Qed.

(** X2.  An event whose type is none of [SUPPORTED_EVENTS] (the case
    [file_comment_added] and the default of the switch), the response
    callback having returned: no handler runs and nothing is asked of the
    registry, nothing is counted, the timer ends with outcome dropped, and
    the event is reported by an error line all the same. *)
Theorem unsupported_event_is_dropped w event teamId response s :
  response HTTP_OK (Some "OK") = Ok tt ->
  supported event = false ->
  handle w event teamId response s
  = (Ok tt, s,
     [ELog LDebug "Received slack event:" None;
      EStartTimer "remote_request_seconds";
      ERespond 200 (Some "OK");
      EEndTimer "dropped";
      ELog LError "Failed to handle slack event:"
           (Some (VStr "unknown_event"))]).
Proof.
  intros Hack Hnot.
  rewrite (handle_of_dispatch w event teamId response s Hack).
  rewrite (dispatch_unsupported w event teamId s
             (unsupported_not_in event Hnot)).
  reflexivity.
Qed.

(** The event the switch names and leaves unhandled. *)
Lemma unsupported_event_is_dropped_witness :
  handle Examples.world0
         (Examples.bare "file_comment_added" None (Some "C1")) "T1"
         Examples.ok_response Examples.store0
  = (Ok tt, Examples.store0,
     [ELog LDebug "Received slack event:" None;
      EStartTimer "remote_request_seconds";
      ERespond 200 (Some "OK");
      EEndTimer "dropped";
      ELog LError "Failed to handle slack event:"
           (Some (VStr "unknown_event"))]).
Proof.
  apply (unsupported_event_is_dropped
           Examples.world0
           (Examples.bare "file_comment_added" None (Some "C1")) "T1"
           Examples.ok_response Examples.store0);
    reflexivity.
Defined.

(** X3.  The branch of lines 108 to 113 is the one of a thrown string: when
    the switch ends by a rejection with the very string "unknown_channel"
    and the response callback has returned, [handle] warns of the event's
    channel and the team, counts the message (again, if the handler had
    counted it), ends the timer with outcome dropped and returns at once,
    without the error line. *)
Theorem thrown_string_is_dropped w event teamId response s s1 t1 :
  response HTTP_OK (Some "OK") = Ok tt ->
  dispatch w event teamId s = (Throw (VStr "unknown_channel"), s1, t1) ->
  handle w event teamId response s
  = (Ok tt, s1,
     ack_prefix ++ t1
       ++ [ELog LWarn "Didn't handle event:"
                (Some (VStr "unknown_channel"));
           ELog LWarn
                ("Ignoring message from unrecognised slack channel id: "
                   ++ template (ev_channel event) ++ " (" ++ teamId ++ ")")
                None;
           EIncCounter "received_messages" "remote";
           EEndTimer "dropped"]).
Proof.
  intros Hack Hdispatch.
  rewrite (handle_of_dispatch w event teamId response s Hack), Hdispatch.
  reflexivity.
Qed.

(** A message in C1 whose forward is rejected with the string: it is
    counted twice. *)
Lemma thrown_string_is_dropped_witness :
  counts
    (trace_of
       (handle (MoreExamples.rejecting "unknown_channel")
               (Examples.bare "message" None (Some "C1")) "T1"
               Examples.ok_response Examples.store0))
  = 2
  /\ outcomes
       (trace_of
          (handle (MoreExamples.rejecting "unknown_channel")
                  (Examples.bare "message" None (Some "C1")) "T1"
                  Examples.ok_response Examples.store0))
     = ["dropped"].
Proof.
  rewrite (thrown_string_is_dropped
             (MoreExamples.rejecting "unknown_channel")
             (Examples.bare "message" None (Some "C1")) "T1"
             Examples.ok_response Examples.store0 Examples.store0
             (counted (Examples.bare "message" None (Some "C1"))
                ++ [EDoChannelUserReplacements
                      (message_copy (Examples.bare "message" None (Some "C1"))
                                    Examples.room_acme "T1")
                      (Some "hello @bob") "client";
                    EOnSlackMessage 0
                      (set_text
                         (message_copy
                            (Examples.bare "message" None (Some "C1"))
                            Examples.room_acme "T1")
                         (Some "hello Bob"))
                      "T1" None])
             eq_refl eq_refl).
  split; reflexivity.
Defined.

(** ** The count of received messages *)

Lemma counts_app (t1 t2 : Trace) : counts (t1 ++ t2) = counts t1 + counts t2.
Proof. unfold counts. now rewrite filter_app, length_app. Qed.

Lemma quiet_calls_count_nothing (t : Trace) :
  forallb quiet_call t = true -> counts t = 0.
Proof.
  induction t as [| e t IH]; [reflexivity |].
  cbn [forallb]. intro H. apply andb_prop in H. destruct H as [He Ht].
  change (e :: t) with ([e] ++ t).
  rewrite counts_app, (IH Ht), Nat.add_0_r.
  destruct e; try reflexivity; discriminate.
Qed.

(** X4.  [handleMessageEvent] counts a message at most once: once when the
    registry has a room for the channel and the message is not the
    bridge's own, whatever happens to it afterwards (forwarded, dropped,
    redacted, failed); not at all when there is no room, when the lookup
    fails or when the message is the bridge's own. *)
Theorem message_is_counted_once w event teamId s :
  counts (trace_of (handleMessageEvent w event teamId s))
  = match w_getRoomBySlackChannelId w (ev_channel event) with
    | Ok (Some room) => if is_echo event (st_rooms s room) then 0 else 1
    | Ok None => 0
    | Throw _ => 0
    end.
Proof.
  unfold handleMessageEvent.
  unfold bind at 1. unfold getRoomBySlackChannelId at 1, call.
  destruct (w_getRoomBySlackChannelId w (ev_channel event))
    as [[room |] | ex]; [| reflexivity | reflexivity].
  unfold bind at 1, get_room at 1.
  fold (is_echo event (st_rooms s room)).
  destruct (is_echo event (st_rooms s room)); [reflexivity |].
  unfold bind at 1, incCounter at 1, emit.
  match goal with
  | |- context [bind (get_room room) ?k s] =>
      assert (Hrest : keeps (only quiet_call) (bind (get_room room) k))
  end.
  { unfold attachments_step, subtype_step, message_changed_step,
      message_deleted_step, forward_step, file_share_step.
    frame_all. }
  specialize (Hrest s).
  match goal with
  | |- context [bind (get_room room) ?k s] =>
      destruct (bind (get_room room) k s) as [[r2 s2] t2]
  end.
  cbn [trace_of store_of fst snd holds only app] in *.
  change (?a :: ?b :: t2) with ([a; b] ++ t2).
  rewrite counts_app, (quiet_calls_count_nothing t2 Hrest).
  reflexivity.
Qed.

(** X5.  Only the handler of messages counts: for an event of another
    type the switch, whichever handler it runs and however that ends, does
    not touch the counter. *)
Theorem only_messages_are_counted w event teamId s :
  (ev_type event =? "message") = false ->
  counts (trace_of (dispatch w event teamId s)) = 0.
Proof.
  intro Hty. apply quiet_calls_count_nothing.
  assert (H : keeps (only quiet_call) (dispatch w event teamId)).
  { unfold dispatch. rewrite Hty.
    repeat match goal with
           | |- keeps _ (if ?b then _ else _) => destruct b
           end;
      try apply keeps_ret;
      (apply keeps_bind; [| intro; apply keeps_ret]).
    - apply handleReaction_quiet.
    - apply handleChannelRenameEvent_quiet.
    - apply handleDomainChangeEvent_quiet.
    - apply handleTyping_quiet. }
  exact (H s).
Qed.

(** A typing notice in C1. *)
Lemma only_messages_are_counted_witness :
  counts
    (trace_of (dispatch Examples.world0
                 (Examples.bare "user_typing" None (Some "C1")) "T1"
                 Examples.store0))
  = 0.
Proof.
  apply (only_messages_are_counted
           Examples.world0 (Examples.bare "user_typing" None (Some "C1"))
           "T1" Examples.store0).
  reflexivity.
Defined.

(** ** The rooms *)

(** X6.  The handler itself assigns to a room only on a rename of a
    channel and on a change of a team's domain: [handle] on an event of any
    other type leaves every room as it was, whatever the calls it makes
    answer. *)
Theorem rooms_change_only_on_rename_and_domain_change
    w event teamId response s :
  (ev_type event =? "channel_rename") = false ->
  (ev_type event =? "team_domain_change") = false ->
  st_rooms (store_of (handle w event teamId response s)) = st_rooms s.
Proof.
  intros Hrename Hdomain.
  rewrite handle_run.
  destruct (response HTTP_OK (Some "OK")) as [u | ex]; [| reflexivity].
  cbn [store_of fst snd].
  assert (H : keeps rooms_kept (after_ack w event teamId)).
  { unfold after_ack. apply keeps_bind.
    - apply keeps_try_catch; [| intro; frame_all].
      unfold dispatch. rewrite Hrename, Hdomain.
      repeat match goal with
             | |- keeps _ (if ?b then _ else _) => destruct b
             end;
        try apply keeps_ret;
        (apply keeps_bind; [| intro; apply keeps_ret]).
      + apply handleMessageEvent_rooms.
      + apply handleReaction_rooms.
      + apply handleTyping_rooms.
    - intro err. unfold record_outcome. frame_all. }
  exact (H s).
Qed.

(** The edit of a message writes the stored previous message and no
    room. *)
Lemma rooms_change_only_on_rename_and_domain_change_witness :
  st_rooms (store_of (handle Examples.world0 (Examples.edit_event None) "T1"
                             Examples.ok_response Examples.store0))
  = st_rooms Examples.store0.
Proof.
  apply (rooms_change_only_on_rename_and_domain_change
           Examples.world0 (Examples.edit_event None) "T1"
           Examples.ok_response Examples.store0);
    reflexivity.
Defined.

(** ** The change of a team's domain, as a whole *)

Lemma promise_all_map_result {A : Type} (f : A -> M unit) x xs s :
  result (promise_all_map f (x :: xs) s)
  = match result (f x s) with
    | Throw ex => Throw ex
    | Ok _ => result (promise_all_map f xs (store_of (f x s)))
    end.
Proof.
  cbn [promise_all_map].
  destruct (f x s) as [[r1 s1] t1]. cbn [store_of result fst snd].
  destruct (promise_all_map f xs s1) as [[r2 s2] t2].
  reflexivity.
Qed.

Lemma domain_change_one_result w event room s :
  result (domain_change_one w event room s)
  = if isDirty (with_domain w (ev_domain event) (st_rooms s room))
    then w_upsertRoom w room
           (with_domain w (ev_domain event) (st_rooms s room))
    else Ok tt.
Proof.
  rewrite domain_change_one_run. cbv zeta.
  destruct (isDirty _); reflexivity.
Qed.

Lemma domain_change_all_result w event rooms :
  NoDup rooms ->
  forall s,
    result (promise_all_map (domain_change_one w event) rooms s) = Ok tt
    <-> (forall room, In room rooms ->
           isDirty (with_domain w (ev_domain event) (st_rooms s room)) = true ->
           w_upsertRoom w room
             (with_domain w (ev_domain event) (st_rooms s room)) = Ok tt).
Proof.
  induction 1 as [| room rooms Hnotin Hnodup IH]; intro s.
  - cbn. split; [intros _ r [] | reflexivity].
  - rewrite promise_all_map_result, domain_change_one_result,
      domain_change_one_store.
    set (new := with_domain w (ev_domain event) (st_rooms s room)).
    set (s' := {| st_rooms := upd (st_rooms s) room new;
                  st_msgs := st_msgs s |}).
    assert (Hrest : forall r, In r rooms -> st_rooms s' r = st_rooms s r).
    { intros r Hr. unfold s'. cbn. apply upd_other.
      intro E. subst r. contradiction. }
    specialize (IH s').
    split.
    + intros Hres r [E | Hr] Hdirty.
      * subst r. fold new in Hdirty |- *. rewrite Hdirty in Hres.
        destruct (w_upsertRoom w room new) as [[] | ex];
          [reflexivity | discriminate].
      * assert (Hok : result (promise_all_map (domain_change_one w event)
                                rooms s') = Ok tt).
        { destruct (isDirty new); [| exact Hres].
          destruct (w_upsertRoom w room new); [exact Hres | discriminate]. }
        rewrite <- (Hrest r Hr) in Hdirty |- *.
        exact (proj1 IH Hok r Hr Hdirty).
    + intro Hall.
      assert (Hok : result (promise_all_map (domain_change_one w event)
                              rooms s') = Ok tt).
      { apply IH. intros r Hr Hdirty. rewrite (Hrest r Hr) in Hdirty |- *.
        apply Hall; [now right | exact Hdirty]. }
      destruct (isDirty new) eqn:Hdirty; [| exact Hok].
      assert (Hup : w_upsertRoom w room new = Ok tt).
      { apply Hall; [now left | exact Hdirty]. }
      rewrite Hup. exact Hok.
Qed.

(** X7.  A change of domain for rooms that are pairwise distinct succeeds
    exactly when every [upsertRoom] it calls succeeds, that is the one of
    every room that reports dirty after its assignment; a room that is not
    dirty cannot make it fail. *)
Theorem domain_change_fails_with_an_upsert w event teamId s rooms :
  w_getRoomsBySlackTeamId w teamId = Ok rooms ->
  NoDup rooms ->
  result (handleDomainChangeEvent w event teamId s) = Ok tt
  <-> (forall room, In room rooms ->
         isDirty (with_domain w (ev_domain event) (st_rooms s room)) = true ->
         w_upsertRoom w room
           (with_domain w (ev_domain event) (st_rooms s room)) = Ok tt).
Proof.
  intros Hrooms Hnodup.
  rewrite <- (domain_change_all_result w event rooms Hnodup s).
  change (handleDomainChangeEvent w event teamId)
    with (bind (getRoomsBySlackTeamId w teamId)
               (promise_all_map (domain_change_one w event))).
  unfold bind, getRoomsBySlackTeamId, call. rewrite Hrooms.
  destruct (promise_all_map (domain_change_one w event) rooms s)
    as [[r2 s2] t2].
  reflexivity.
Qed.

(** In the bridge where every upsert succeeds the change succeeds. *)
Lemma domain_change_fails_with_an_upsert_witness :
  result (handleDomainChangeEvent Examples.world0 Examples.domain_event
                                  "T1" Examples.store0)
  = Ok tt.
Proof.
  assert (Hnodup : NoDup [0; 1; 2]).
  { repeat constructor; cbn; lia. }
  apply (proj2 (domain_change_fails_with_an_upsert
                  Examples.world0 Examples.domain_event "T1"
                  Examples.store0 [0; 1; 2] eq_refl Hnodup)).
  intros room _ _. reflexivity.
Defined.

(** Where the upsert of room 0 is rejected, the change fails with that
    rejection, and rooms 1 and 2 were assigned and room 1 upserted all the
    same. *)
Example failed_upsert_stops_no_other_room :
  handleDomainChangeEvent MoreExamples.failing_upsert Examples.domain_event
                          "T1" Examples.store0
  = (Throw (VError "database is gone"),
     store_of (handleDomainChangeEvent Examples.world0 Examples.domain_event
                                       "T1" Examples.store0),
     [EGetRoomsBySlackTeamId "T1"; EUpsertRoom 0; EUpsertRoom 1]).
Proof. reflexivity. Qed.

(** ** The rename of a channel *)

(** The room once [SlackChannelName] was assigned. *)
Definition with_name (w : World) (name : option string) (old : BridgedRoom)
  : BridgedRoom :=
  assigned w (fun r =>
    {| SlackChannelId := SlackChannelId r;
       SlackChannelName := name;
       SlackTeamId := SlackTeamId r;
       SlackTeamDomain := SlackTeamDomain r;
       SlackBotId := SlackBotId r;
       SlackClient := SlackClient r;
       isDirty := isDirty r |}) old.

Lemma handleChannelRenameEvent_run w event s room :
  w_getRoomBySlackChannelId w (ev_id event) = Ok (Some room) ->
  let name :=
    (template (SlackTeamDomain (st_rooms s room)) ++ ".#"
       ++ template (ev_name event))%string in
  let new := with_name w (Some name) (st_rooms s room) in
  handleChannelRenameEvent w event s
  = (if isDirty new then w_upsertRoom w room new else Ok tt,
     {| st_rooms := upd (st_rooms s) room new; st_msgs := st_msgs s |},
     EGetRoomBySlackChannelId (ev_id event)
       :: (if isDirty new then [EUpsertRoom room] else [])).
Proof.
  intros Hroom name new.
  unfold handleChannelRenameEvent, bind, getRoomBySlackChannelId, call,
    get_room, set_SlackChannelName, assign, upsertRoom, ret.
  rewrite Hroom. fold name. fold (with_name w (Some name) (st_rooms s room)).
  fold new. cbn [st_rooms]. rewrite !upd_same.
  destruct (isDirty new); [| reflexivity].
  cbn [st_rooms app]. rewrite upd_same. reflexivity.
Qed.

(** X8.  A rename of a channel the registry has a room for (asked by the
    [id] of the event, not by its [channel]): the room's name becomes the
    team's domain, ".#" and the new name, with the word undefined for a
    part that is missing; the room's other properties, the other rooms and
    the stored messages stay; [upsertRoom] is called, once, exactly when
    the room reports dirty after the assignment, and only a failing upsert
    makes the handler fail. *)
Theorem rename_sets_channel_name w event s room :
  w_getRoomBySlackChannelId w (ev_id event) = Ok (Some room) ->
  let run := handleChannelRenameEvent w event s in
  let old := st_rooms s room in
  let new := st_rooms (store_of run) room in
  SlackChannelName new
  = Some (template (SlackTeamDomain old) ++ ".#"
            ++ template (ev_name event))%string
  /\ (SlackChannelId new = SlackChannelId old
      /\ SlackTeamId new = SlackTeamId old
      /\ SlackTeamDomain new = SlackTeamDomain old
      /\ SlackBotId new = SlackBotId old
      /\ SlackClient new = SlackClient old)
  /\ (forall other, other <> room ->
        st_rooms (store_of run) other = st_rooms s other)
  /\ st_msgs (store_of run) = st_msgs s
  /\ trace_of run
     = EGetRoomBySlackChannelId (ev_id event)
         :: (if isDirty new then [EUpsertRoom room] else [])
  /\ result run
     = (if isDirty new then w_upsertRoom w room new else Ok tt).
Proof.
  intros Hroom run old new. subst run old new.
  rewrite (handleChannelRenameEvent_run w event s room Hroom).
  cbv zeta. cbn [st_rooms st_msgs store_of trace_of result fst snd].
  rewrite !upd_same.
  repeat split; try reflexivity.
  intros other Hother. now apply upd_other.
Qed.

(** C1 is renamed to random: the name changes, so the room is dirty and
    upserted. *)
Lemma rename_sets_channel_name_witness :
  SlackChannelName
    (st_rooms
       (store_of (handleChannelRenameEvent Examples.world0
                    (MoreExamples.other "channel_rename" None None
                                        (Some "C1") (Some "random"))
                    Examples.store0)) 0)
  = Some "acme.#random"
  /\ trace_of (handleChannelRenameEvent Examples.world0
                 (MoreExamples.other "channel_rename" None None
                                     (Some "C1") (Some "random"))
                 Examples.store0)
     = [EGetRoomBySlackChannelId (Some "C1"); EUpsertRoom 0].
Proof.
  pose proof (rename_sets_channel_name
                Examples.world0
                (MoreExamples.other "channel_rename" None None
                                    (Some "C1") (Some "random"))
                Examples.store0 0 eq_refl) as H.
  cbv zeta in H. destruct H as (Hname & _ & _ & _ & Htrace & _).
  split; [exact Hname | exact Htrace].
Defined.

(** ** Reactions and typing notices *)

Lemma dispatch_reaction w event teamId s :
  ev_type event = "reaction_added" \/ ev_type event = "reaction_removed" ->
  dispatch w event teamId s
  = match handleReaction w event teamId s with
    | (Ok _, s1, t1) => (Ok VNull, s1, t1)
    | (Throw ex, s1, t1) => (Throw ex, s1, t1)
    end.
Proof.
  intro Hty. unfold dispatch.
  assert (E : (ev_type event =? "message") = false
              /\ ((ev_type event =? "reaction_added")
                  || (ev_type event =? "reaction_removed")) = true).
  { destruct Hty as [-> | ->]; split; reflexivity. }
  destruct E as [-> ->]. unfold bind, ret.
  destruct (handleReaction w event teamId s) as [[[[] | ex] s1] t1];
    [rewrite app_nil_r |]; reflexivity.
Qed.

Lemma dispatch_typing w event teamId s :
  ev_type event = "user_typing" ->
  dispatch w event teamId s
  = match handleTyping w event teamId s with
    | (Ok _, s1, t1) => (Ok VNull, s1, t1)
    | (Throw ex, s1, t1) => (Throw ex, s1, t1)
    end.
Proof.
  intro Hty. unfold dispatch. rewrite Hty.
  change ("user_typing" =? "message") with false.
  change ("user_typing" =? "reaction_added") with false.
  change ("user_typing" =? "reaction_removed") with false.
  change ("user_typing" =? "channel_rename") with false.
  change ("user_typing" =? "team_domain_change") with false.
  change ("user_typing" =? "user_typing") with true.
  cbn [orb]. unfold bind, ret.
  destruct (handleTyping w event teamId s) as [[[[] | ex] s1] t1];
    [rewrite app_nil_r |]; reflexivity.
Qed.

(** X9.  A reaction whose item is in a channel the registry has a room
    for, the response callback having returned.  The room is looked up by
    the channel of the item, and that channel is the [channel_id] of the
    record; the event's own [channel] is not read for either.  A reaction
    that was added is forwarded once by [onSlackReactionAdded], and the
    outcome is success when that call returns; a reaction that was removed
    is not forwarded at all, and the outcome is success. *)
Theorem reaction_is_forwarded_only_when_added
    w event teamId response s item room :
  response HTTP_OK (Some "OK") = Ok tt ->
  ev_item event = Some item ->
  w_getRoomBySlackChannelId w (msg_channel item) = Ok (Some room) ->
  let rm := st_rooms s room in
  let msg :=
    Object_assign event (msg_channel item)
      (js_or (SlackTeamDomain rm) (SlackTeamId rm)) teamId
      (js_or (ev_user event) (ev_bot_id event)) in
  (ev_type event = "reaction_removed" ->
   handle w event teamId response s
   = (Ok tt, s,
      ack_prefix
        ++ [EGetRoomBySlackChannelId (msg_channel item);
            EEndTimer "success"]))
  /\ (ev_type event = "reaction_added" ->
      w_onSlackReactionAdded w room msg teamId = Ok tt ->
      handle w event teamId response s
      = (Ok tt, s,
         ack_prefix
           ++ [EGetRoomBySlackChannelId (msg_channel item);
               EOnSlackReactionAdded room msg teamId;
               EEndTimer "success"])).
Proof.
  intros Hack Hitem Hroom rm msg.
  split.
  - intro Hty.
    rewrite (handle_of_dispatch w event teamId response s Hack).
    rewrite (dispatch_reaction w event teamId s (or_intror Hty)).
    unfold handleReaction, bind, getRoomBySlackChannelId, call, get_room.
    rewrite Hitem, Hroom, Hty. reflexivity.
  - intros Hty Hfwd.
    rewrite (handle_of_dispatch w event teamId response s Hack).
    rewrite (dispatch_reaction w event teamId s (or_introl Hty)).
    unfold handleReaction, bind, getRoomBySlackChannelId, call, get_room,
      onSlackReactionAdded.
    rewrite Hitem, Hroom, Hty.
    change ("reaction_added" =? "reaction_added") with true. cbv iota.
    fold rm. fold msg. rewrite Hfwd. reflexivity.
Qed.

(** A reaction added to an item in C1, the event itself naming no
    channel. *)
Lemma reaction_is_forwarded_only_when_added_witness :
  exists m,
    trace_of
      (handle Examples.world0
         (MoreExamples.other "reaction_added" None
            (Some {| msg_channel := Some "C1"; msg_user := None;
                     msg_bot_id := None; msg_text := None |})
            None None)
         "T1" Examples.ok_response Examples.store0)
    = ack_prefix
        ++ [EGetRoomBySlackChannelId (Some "C1");
            EOnSlackReactionAdded 0 m "T1";
            EEndTimer "success"]
    /\ channel_id m = Some "C1".
Proof.
  eexists. split.
  - exact (f_equal snd
             (proj2 (reaction_is_forwarded_only_when_added
                       Examples.world0
                       (MoreExamples.other "reaction_added" None
                          (Some {| msg_channel := Some "C1";
                                   msg_user := None; msg_bot_id := None;
                                   msg_text := None |})
                          None None)
                       "T1" Examples.ok_response Examples.store0
                       {| msg_channel := Some "C1"; msg_user := None;
                          msg_bot_id := None; msg_text := None |}
                       0 eq_refl eq_refl eq_refl)
                    eq_refl eq_refl)).
  - reflexivity.
Defined.

(** X10.  A typing notice in a channel the registry has a room for.  The
    handler of typing notices makes two calls, the lookup of the room and
    one [onSlackTyping] with the event's channel, the room's domain (or
    else its team id), the team and the event's user (or else bot); it
    counts nothing, leaves the store as it was and ends as [onSlackTyping]
    ends.  When the response callback has returned and [onSlackTyping]
    returns, these two calls are all [handle] makes between the response
    and the end of the timer, and the outcome is success. *)
Theorem typing_is_forwarded w event teamId response s room :
  ev_type event = "user_typing" ->
  w_getRoomBySlackChannelId w (ev_channel event) = Ok (Some room) ->
  let typingEvent := message_copy event (st_rooms s room) teamId in
  handleTyping w event teamId s
  = (w_onSlackTyping w room typingEvent teamId, s,
     [EGetRoomBySlackChannelId (ev_channel event);
      EOnSlackTyping room typingEvent teamId])
  /\ (response HTTP_OK (Some "OK") = Ok tt ->
      w_onSlackTyping w room typingEvent teamId = Ok tt ->
      handle w event teamId response s
      = (Ok tt, s,
         [ELog LDebug "Received slack event:" None;
          EStartTimer "remote_request_seconds";
          ERespond 200 (Some "OK");
          EGetRoomBySlackChannelId (ev_channel event);
          EOnSlackTyping room typingEvent teamId;
          EEndTimer "success"])).
Proof.
  intros Hty Hroom typingEvent.
  assert (Hrun : handleTyping w event teamId s
                 = (w_onSlackTyping w room typingEvent teamId, s,
                    [EGetRoomBySlackChannelId (ev_channel event);
                     EOnSlackTyping room typingEvent teamId])).
  { unfold handleTyping, bind, getRoomBySlackChannelId, call, get_room,
      onSlackTyping.
    rewrite Hroom.
    fold (message_copy event (st_rooms s room) teamId). fold typingEvent.
    destruct (w_onSlackTyping w room typingEvent teamId) as [[] | ex];
      reflexivity. }
  split; [exact Hrun |].
  intros Hack Hfwd.
  rewrite (handle_of_dispatch w event teamId response s Hack).
  rewrite (dispatch_typing w event teamId s Hty), Hrun, Hfwd.
  reflexivity.
Qed.

(** U1 types in C1. *)
Lemma typing_is_forwarded_witness :
  handle Examples.world0 (Examples.bare "user_typing" None (Some "C1")) "T1"
         Examples.ok_response Examples.store0
  = (Ok tt, Examples.store0,
     [ELog LDebug "Received slack event:" None;
      EStartTimer "remote_request_seconds";
      ERespond 200 (Some "OK");
      EGetRoomBySlackChannelId (Some "C1");
      EOnSlackTyping 0
        (message_copy (Examples.bare "user_typing" None (Some "C1"))
                      Examples.room_acme "T1")
        "T1";
      EEndTimer "success"]).
Proof.
  exact (proj2 (typing_is_forwarded
                  Examples.world0
                  (Examples.bare "user_typing" None (Some "C1"))
                  "T1" Examples.ok_response Examples.store0 0
                  eq_refl eq_refl)
               eq_refl eq_refl).
Defined.

(** ** Messages on the other paths of [handleMessageEvent] *)

(** X11.  A message that is not the bridge's own, in a room without a
    client: whatever its subtype, its attachments and its file, it is
    counted, a warning is logged and the copy is forwarded once by
    [onSlackMessage] as it is, with the text as received; the mention
    resolver, the datastore, the redaction and the file gateway are not
    called, and the handler ends as that one call ends. *)
Theorem room_without_client_forwards_as_is w event teamId s room :
  w_getRoomBySlackChannelId w (ev_channel event) = Ok (Some room) ->
  SlackClient (st_rooms s room) = None ->
  is_echo event (st_rooms s room) = false ->
  let msg := message_copy event (st_rooms s room) teamId in
  handleMessageEvent w event teamId s
  = (w_onSlackMessage w room msg teamId None, s,
     counted event
       ++ [ELog LWarn
             ("no slack token for "
                ++ template (SlackTeamDomain (st_rooms s room))) None;
           EOnSlackMessage room msg teamId None]).
Proof.
  intros Hroom Hclient Hecho msg.
  unfold handleMessageEvent, bind, getRoomBySlackChannelId, call, get_room,
    incCounter, log, emit, onSlackMessage.
  rewrite Hroom. unfold is_echo in Hecho. rewrite Hecho, Hclient.
  fold (message_copy event (st_rooms s room) teamId). fold msg.
  destruct (w_onSlackMessage w room msg teamId None) as [[] | ex];
    reflexivity.
Qed.

(** The deletion of a known message in a room without a client is
    forwarded, not redacted. *)
Lemma room_without_client_forwards_as_is_witness :
  handleMessageEvent Examples.world0
    (MoreExamples.message (Some "message_deleted") None None) "T1"
    MoreExamples.store_without_client
  = (Ok tt, MoreExamples.store_without_client,
     [EGetRoomBySlackChannelId (Some "C1");
      EIncCounter "received_messages" "remote";
      ELog LWarn "no slack token for undefined" None;
      EOnSlackMessage 0
        (message_copy
           (MoreExamples.message (Some "message_deleted") None None)
           MoreExamples.room_without_client "T1")
        "T1" None]).
Proof.
  apply (room_without_client_forwards_as_is
           Examples.world0
           (MoreExamples.message (Some "message_deleted") None None) "T1"
           MoreExamples.store_without_client 0);
    reflexivity.
Defined.

Lemma topic_is_no_echo event rm : is_topic event = true -> is_echo event rm = false.
Proof.
  unfold is_topic, is_echo. intro H.
  apply orb_prop in H.
  destruct H as [H | H]; apply strict_eq_true in H; rewrite H; reflexivity.
Qed.

(** X12.  A message with subtype [channel_topic] or [group_topic] in a
    room with a client: it is counted and handed, as the copy with the
    text as received, to [onSlackTopic], once; it is not forwarded by
    [onSlackMessage], also when it carries attachments, and the mention
    resolver is not called. *)
Theorem topic_goes_to_onSlackTopic w event teamId s room client :
  w_getRoomBySlackChannelId w (ev_channel event) = Ok (Some room) ->
  SlackClient (st_rooms s room) = Some client ->
  is_topic event = true ->
  let msg := message_copy event (st_rooms s room) teamId in
  handleMessageEvent w event teamId s
  = (w_onSlackTopic w room msg teamId, s,
     counted event ++ [EOnSlackTopic room msg teamId]).
Proof.
  intros Hroom Hclient Htopic msg.
  pose proof (topic_is_no_echo event (st_rooms s room) Htopic) as Hecho.
  unfold handleMessageEvent, bind, getRoomBySlackChannelId, call, get_room,
    incCounter, emit, onSlackTopic.
  rewrite Hroom. unfold is_echo in Hecho. rewrite Hecho, Hclient.
  fold (message_copy event (st_rooms s room) teamId). fold msg.
  unfold is_topic in Htopic. unfold subtype_is.
  change (base msg) with event. rewrite Htopic.
  destruct (w_onSlackTopic w room msg teamId) as [[] | ex]; reflexivity.
Qed.

(** The topic of C1 is set. *)
Lemma topic_goes_to_onSlackTopic_witness :
  handleMessageEvent Examples.world0
    (MoreExamples.message (Some "channel_topic") None None) "T1"
    Examples.store0
  = (Ok tt, Examples.store0,
     [EGetRoomBySlackChannelId (Some "C1");
      EIncCounter "received_messages" "remote";
      EOnSlackTopic 0
        (message_copy (MoreExamples.message (Some "channel_topic") None None)
                      Examples.room_acme "T1")
        "T1"]).
Proof.
  apply (topic_goes_to_onSlackTopic
           Examples.world0
           (MoreExamples.message (Some "channel_topic") None None) "T1"
           Examples.store0 0 "client");
    reflexivity.
Defined.

(** X13.  A message with subtype [message_replied] that gets past the
    attachments, in a room with a client, the response callback having
    returned: it is counted and then dropped; nothing is forwarded, no
    other call is made, and the outcome is success. *)
Theorem reply_notice_is_counted_and_dropped
    w event teamId response s room client :
  response HTTP_OK (Some "OK") = Ok tt ->
  ev_type event = "message" ->
  ev_subtype event = Some "message_replied" ->
  past_attachments event = true ->
  w_getRoomBySlackChannelId w (ev_channel event) = Ok (Some room) ->
  SlackClient (st_rooms s room) = Some client ->
  handle w event teamId response s
  = (Ok tt, s,
     [ELog LDebug "Received slack event:" None;
      EStartTimer "remote_request_seconds";
      ERespond 200 (Some "OK");
      EGetRoomBySlackChannelId (ev_channel event);
      EIncCounter "received_messages" "remote";
      EEndTimer "success"]).
Proof.
  intros Hack Hty Hsub Hpast Hroom Hclient.
  apply (handle_message_success w event teamId response s s
           (counted event) Hack Hty).
  rewrite (handleMessageEvent_with_client w event teamId s room client
             Hroom Hclient);
    [| now apply (not_echo event _ "message_replied")
     | now apply (not_topic event "message_replied")].
  cbv zeta.
  rewrite (attachments_step_past w room client
             (message_copy event (st_rooms s room) teamId) teamId s Hpast).
  unfold subtype_step, subtype_is.
  change (base (message_copy event (st_rooms s room) teamId)) with event.
  rewrite Hsub. cbn.
  destruct (ev_message event), (ev_previous_message event); reflexivity.
Qed.

(** The notice of a reply in C1. *)
Lemma reply_notice_is_counted_and_dropped_witness :
  handle Examples.world0
         (MoreExamples.message (Some "message_replied") None None) "T1"
         Examples.ok_response Examples.store0
  = (Ok tt, Examples.store0,
     [ELog LDebug "Received slack event:" None;
      EStartTimer "remote_request_seconds";
      ERespond 200 (Some "OK");
      EGetRoomBySlackChannelId (Some "C1");
      EIncCounter "received_messages" "remote";
      EEndTimer "success"]).
Proof.
  apply (reply_notice_is_counted_and_dropped
           Examples.world0
           (MoreExamples.message (Some "message_replied") None None) "T1"
           Examples.ok_response Examples.store0 0 "client");
    reflexivity.
Defined.

(** X14.  A message with subtype [file_comment] that gets past the
    attachments, in a room with a client, the mention resolver answering
    for the event's text whatever the record: the message is forwarded
    once, and its [user_id] is the author of the comment when the event
    carries a comment (also when the comment names no author), and the
    event's user, or else bot, when it carries none. *)
Theorem file_comment_takes_the_comment_author
    w event teamId s room client t :
  ev_subtype event = Some "file_comment" ->
  past_attachments event = true ->
  w_getRoomBySlackChannelId w (ev_channel event) = Ok (Some room) ->
  SlackClient (st_rooms s room) = Some client ->
  (forall m, w_doChannelUserReplacements w m (ev_text event) client = Ok t) ->
  let msg := message_copy event (st_rooms s room) teamId in
  let author :=
    match ev_comment event with
    | Some comment => comment_user comment
    | None => js_or (ev_user event) (ev_bot_id event)
    end in
  forwards (trace_of (handleMessageEvent w event teamId s))
  = [EOnSlackMessage room (set_text (set_user_id msg author) t) teamId None]
  /\ user_id (set_text (set_user_id msg author) t) = author.
Proof.
  intros Hsub Hpast Hroom Hclient Hresolve msg author.
  split; [| reflexivity].
  rewrite (handleMessageEvent_with_client w event teamId s room client
             Hroom Hclient);
    [| now apply (not_echo event _ "file_comment")
     | now apply (not_topic event "file_comment")].
  cbv zeta. fold msg.
  rewrite (attachments_step_past w room client msg teamId s Hpast).
  assert (Hstep : subtype_step w room client msg s
                  = (Ok (Next (set_user_id msg author)), s, [])).
  { unfold subtype_step, subtype_is. change (base msg) with event.
    rewrite Hsub. unfold author. cbn.
    destruct (ev_comment event) as [comment |]; [reflexivity |].
    destruct (ev_message event), (ev_previous_message event); reflexivity. }
  rewrite Hstep.
  rewrite (forward_step_plain w room event (set_user_id msg author) teamId
             s client Hclient);
    [| unfold subtype_is; change (base (set_user_id msg author)) with event;
       now rewrite Hsub].
  change (ev_text (base (set_user_id msg author))) with (ev_text event).
  rewrite Hresolve.
  destruct (w_onSlackMessage w room
              (set_text (set_user_id msg author) t) teamId None)
    as [[] | ex]; reflexivity.
Qed.

(** U1 posts the comment U7 wrote on a file. *)
Lemma file_comment_takes_the_comment_author_witness :
  exists m,
    forwards
      (trace_of
         (handleMessageEvent
            (MoreExamples.rejecting "busy")
            (MoreExamples.message (Some "file_comment")
               (Some {| comment_user := Some "U7" |}) None)
            "T1" Examples.store0))
    = [EOnSlackMessage 0 m "T1" None]
    /\ user_id m = Some "U7".
Proof.
  eexists.
  exact (file_comment_takes_the_comment_author
           (MoreExamples.rejecting "busy")
           (MoreExamples.message (Some "file_comment")
              (Some {| comment_user := Some "U7" |}) None)
           "T1" Examples.store0 0 "client" (Some "hello Bob")
           eq_refl eq_refl eq_refl eq_refl (fun _ => eq_refl)).
Defined.

(** The run of lines 231 to 243 on a shared file: it returns whatever the
    file gateway does. *)
Lemma file_share_step_run w room msg s client f :
  SlackClient (st_rooms s room) = Some client ->
  ev_subtype (base msg) = Some "file_share" ->
  ev_file (base msg) = Some f ->
  file_share_step w room msg s
  = match w_enablePublicSharing w f client with
    | Ok f' =>
        (Ok (set_file msg (Some f'),
             match w_fetchFileContent w f' with
             | Ok c => c
             | Throw _ => None
             end), s,
         [EEnablePublicSharing f client; EFetchFileContent f'])
    | Throw _ => (Ok (msg, None), s, [EEnablePublicSharing f client])
    end.
Proof.
  intros Hclient Hsub Hfile.
  unfold file_share_step, subtype_is. rewrite Hsub, Hfile, strict_eq_refl.
  unfold attempt, try_catch, bind, get_room, enablePublicSharing,
    fetchFileContent, call, ret.
  rewrite Hclient.
  destruct (w_enablePublicSharing w f client) as [f' | ex1]; [| reflexivity].
  destruct (w_fetchFileContent w f') as [[c |] | ex2]; reflexivity.
Qed.

(** X15.  A message with subtype [file_share] that carries a file and gets
    past the attachments, in a room with a client, the mention resolver
    answering for the event's text whatever the record.  Whatever the file
    gateway does, the message is forwarded once and the handler ends as
    that forward ends, with the store as it was: a failure to make the file
    public forwards the message with the file as received and no content;
    a failure to fetch it forwards the message with the public file and no
    content; when both succeed the content goes along. *)
Theorem file_failure_does_not_fail_the_message
    w event teamId s room client f t :
  ev_subtype event = Some "file_share" ->
  ev_file event = Some f ->
  past_attachments event = true ->
  w_getRoomBySlackChannelId w (ev_channel event) = Ok (Some room) ->
  SlackClient (st_rooms s room) = Some client ->
  (forall m, w_doChannelUserReplacements w m (ev_text event) client = Ok t) ->
  let msg := message_copy event (st_rooms s room) teamId in
  let sent :=
    match w_enablePublicSharing w f client with
    | Ok f' => set_file msg (Some f')
    | Throw _ => msg
    end in
  let content :=
    match w_enablePublicSharing w f client with
    | Ok f' =>
        match w_fetchFileContent w f' with
        | Ok c => c
        | Throw _ => None
        end
    | Throw _ => None
    end in
  let run := handleMessageEvent w event teamId s in
  forwards (trace_of run)
  = [EOnSlackMessage room (set_text sent t) teamId content]
  /\ result run = w_onSlackMessage w room (set_text sent t) teamId content
  /\ store_of run = s.
Proof.
  intros Hsub Hfile Hpast Hroom Hclient Hresolve msg sent content run.
  assert (Hrun : run
                 = (w_onSlackMessage w room (set_text sent t) teamId content,
                    s,
                    counted event
                      ++ match w_enablePublicSharing w f client with
                         | Ok f' => [EEnablePublicSharing f client;
                                     EFetchFileContent f']
                         | Throw _ => [EEnablePublicSharing f client]
                         end
                      ++ [EDoChannelUserReplacements sent (ev_text event)
                                                     client;
                          EOnSlackMessage room (set_text sent t) teamId
                                          content])).
  { subst run.
    rewrite (handleMessageEvent_with_client w event teamId s room client
               Hroom Hclient);
      [| now apply (not_echo event _ "file_share")
       | now apply (not_topic event "file_share")].
    cbv zeta. fold msg.
    rewrite (attachments_step_past w room client msg teamId s Hpast).
    assert (Hstep : subtype_step w room client msg s
                    = (Ok (Next msg), s, [])).
    { unfold subtype_step, subtype_is. change (base msg) with event.
      rewrite Hsub. cbn.
      destruct (ev_comment event), (ev_message event),
        (ev_previous_message event); reflexivity. }
    rewrite Hstep.
    unfold forward_step. unfold bind at 1. unfold get_room at 1.
    rewrite Hclient. unfold bind at 1.
    rewrite (file_share_step_run w room msg s client f Hclient Hsub Hfile).
    subst sent content.
    unfold bind, doChannelUserReplacements, onSlackMessage, call.
    destruct (w_enablePublicSharing w f client) as [f' | ex1];
      cbn [fst snd];
      [change (ev_text (base (set_file msg (Some f'))))
         with (ev_text event)
      | change (ev_text (base msg)) with (ev_text event)];
      rewrite Hresolve;
      match goal with
      | |- context [w_onSlackMessage w room ?m teamId ?c] =>
          destruct (w_onSlackMessage w room m teamId c) as [[] | ex]
      end;
      reflexivity. }
  rewrite Hrun. cbn [trace_of result store_of fst snd].
  repeat split.
  rewrite !forwards_app.
  destruct (w_enablePublicSharing w f client); reflexivity.
Qed.

(** A file shared in C1 where files cannot be made public: the message
    goes out with the file as received and no content. *)
Lemma file_failure_does_not_fail_the_message_witness :
  handleMessageEvent MoreExamples.private_files
    (MoreExamples.message (Some "file_share") None (Some "F1")) "T1"
    Examples.store0
  = (Ok tt, Examples.store0,
     [EGetRoomBySlackChannelId (Some "C1");
      EIncCounter "received_messages" "remote";
      EEnablePublicSharing "F1" "client";
      EDoChannelUserReplacements
        (message_copy
           (MoreExamples.message (Some "file_share") None (Some "F1"))
           Examples.room_acme "T1")
        (Some "hello @bob") "client";
      EOnSlackMessage 0
        (set_text
           (message_copy
              (MoreExamples.message (Some "file_share") None (Some "F1"))
              Examples.room_acme "T1")
           (Some "hello Bob"))
        "T1" None])
  /\ result
       (handleMessageEvent MoreExamples.private_files
          (MoreExamples.message (Some "file_share") None (Some "F1")) "T1"
          Examples.store0)
     = Ok tt.
Proof.
  split; [reflexivity |].
  exact (proj1 (proj2 (file_failure_does_not_fail_the_message
                         MoreExamples.private_files
                         (MoreExamples.message (Some "file_share") None
                                               (Some "F1"))
                         "T1" Examples.store0 0 "client" "F1"
                         (Some "hello Bob")
                         eq_refl eq_refl eq_refl eq_refl eq_refl
                         (fun _ => eq_refl)))).
Defined.

(** ** Edits by a user *)

(** X16.  A message with subtype [message_changed] that carries the edited
    message and the previous one, the edited message naming no bot, past
    the attachments, in a room with a client.  The mention resolver is
    asked first for the text of the previous message.  When it fails there,
    nothing is forwarded and the stored previous message keeps its text.
    When it answers, the stored previous message takes the answer as its
    text, and the edit is forwarded once the resolver has answered for the
    text of the edited message: once, with that second answer as text and
    the user of the edited message as [user_id]. *)
Theorem edit_by_user_is_forwarded
    w event teamId s room client message p :
  ev_subtype event = Some "message_changed" ->
  ev_message event = Some message ->
  ev_previous_message event = Some p ->
  msg_bot_id message = None ->
  past_attachments event = true ->
  w_getRoomBySlackChannelId w (ev_channel event) = Ok (Some room) ->
  SlackClient (st_rooms s room) = Some client ->
  let msg := message_copy event (st_rooms s room) teamId in
  let edited :=
    set_text (set_user_id msg (msg_user message)) (msg_text message) in
  let run := handleMessageEvent w event teamId s in
  match w_doChannelUserReplacements w edited (msg_text (st_msgs s p))
                                    client with
  | Throw ex =>
      run
      = (Throw ex, s,
         counted event
           ++ [EDoChannelUserReplacements edited (msg_text (st_msgs s p))
                                          client])
  | Ok t1 =>
      store_of run = write_text p t1 s
      /\ msg_text (st_msgs (store_of run) p) = t1
      /\ forall t2,
           w_doChannelUserReplacements w edited (msg_text message) client
           = Ok t2 ->
           forwards (trace_of run)
           = [EOnSlackMessage room (set_text edited t2) teamId None]
           /\ user_id (set_text edited t2) = msg_user message
  end.
Proof.
  intros Hsub Hmsg Hprev Hbot Hpast Hroom Hclient msg edited run.
  subst run.
  rewrite (handleMessageEvent_with_client w event teamId s room client
             Hroom Hclient);
    [| now apply (not_echo event _ "message_changed")
     | now apply (not_topic event "message_changed")].
  cbv zeta. fold msg.
  rewrite (attachments_step_past w room client msg teamId s Hpast).
  rewrite (subtype_step_changed w room client msg s message p Hsub Hmsg Hprev).
  rewrite message_changed_step_run. cbv zeta. fold edited. rewrite Hbot.
  destruct (w_doChannelUserReplacements w edited (msg_text (st_msgs s p))
                                         client) as [t1 | ex];
    [| reflexivity].
  rewrite (forward_step_plain w room event edited teamId _ client);
    [| exact Hclient
     | unfold subtype_is; change (base edited) with
         (base (set_text msg (msg_text message))); cbn; now rewrite Hsub].
  change (ev_text (base edited)) with (msg_text message).
  destruct (w_doChannelUserReplacements w edited (msg_text message) client)
    as [t2' | ex2].
  - destruct (w_onSlackMessage w room (set_text edited t2') teamId None)
      as [[] | ex3];
      cbn [store_of trace_of fst snd];
      (split; [reflexivity |]);
      (split; [unfold write_text; cbn; now rewrite upd_same |]);
      intros t2 Ht2; injection Ht2 as <-; split; reflexivity.
  - cbn [store_of trace_of fst snd].
    split; [reflexivity |].
    split; [unfold write_text; cbn; now rewrite upd_same |].
    intros t2 Ht2. discriminate.
Qed.

(** U1 edits a message in C1: the previous text is resolved in place and
    the edit goes out under U1. *)
Lemma edit_by_user_is_forwarded_witness :
  msg_text
    (st_msgs
       (store_of (handleMessageEvent Examples.world0
                    (Examples.edit_event None) "T1" Examples.store0)) 0)
  = Some "hello Bob"
  /\ exists m,
       forwards
         (trace_of (handleMessageEvent Examples.world0
                      (Examples.edit_event None) "T1" Examples.store0))
       = [EOnSlackMessage 0 m "T1" None]
       /\ user_id m = Some "U1".
Proof.
  pose proof (edit_by_user_is_forwarded
                Examples.world0 (Examples.edit_event None) "T1"
                Examples.store0 0 "client"
                {| msg_channel := None; msg_user := Some "U1";
                   msg_bot_id := None; msg_text := Some "hello bob" |}
                0 eq_refl eq_refl eq_refl eq_refl eq_refl eq_refl eq_refl)
    as H.
  cbv zeta in H. destruct H as (_ & Htext & Hfwd).
  split; [exact Htext |].
  eexists. exact (Hfwd (Some "hello bob") eq_refl).
Defined.

(** ** The datastore's events *)

Definition is_event_lookup (e : Effect) : bool :=
  match e with
  | EGetEventBySlackId _ _ => true
  | ERedactEvent _ _ => true
  | _ => false
  end.

(** A call that neither asks the datastore for a bridged event nor
    redacts one. *)
Definition no_event_lookup (e : Effect) : bool := negb (is_event_lookup e).

(** X17.  The datastore is asked for a bridged event, and an event is
    redacted, for deleted messages only: [handle] on an event that is not a
    message, or whose subtype is not [message_deleted], makes neither call,
    whatever the calls it makes answer. *)
Theorem only_deletions_reach_the_event_store
    w event teamId response s :
  (ev_type event =? "message")
  && strict_eq (ev_subtype event) (Some "message_deleted") = false ->
  forallb no_event_lookup (trace_of (handle w event teamId response s))
  = true.
Proof.
  intro Hnot.
  rewrite handle_run.
  destruct (response HTTP_OK (Some "OK")) as [u | ex]; [| reflexivity].
  cbn [trace_of snd]. rewrite forallb_app. cbn [ack_prefix forallb andb].
  change (no_event_lookup (ELog LDebug "Received slack event:" None))
    with true.
  cbn [andb].
  assert (H : keeps (only no_event_lookup) (after_ack w event teamId)).
  { unfold after_ack. apply keeps_bind.
    - apply keeps_try_catch; [| intro; frame_all].
      unfold dispatch.
      destruct (ev_type event =? "message") eqn:Hty.
      + cbn [andb] in Hnot.
        apply keeps_bind; [| intro; apply keeps_ret].
        unfold handleMessageEvent, attachments_step, subtype_step,
          message_changed_step, message_deleted_step, forward_step,
          file_share_step, subtype_is.
        cbn [base Object_assign]. rewrite Hnot.
        frame_all.
      + repeat match goal with
               | |- keeps _ (if ?b then _ else _) => destruct b
               end;
          try apply keeps_ret;
          (apply keeps_bind; [| intro; apply keeps_ret]).
        * unfold handleReaction. frame_all.
        * unfold handleChannelRenameEvent. frame_all.
        * unfold handleDomainChangeEvent. frame_all.
        * unfold handleTyping. frame_all.
    - intro err. unfold record_outcome. frame_all. }
  exact (H s).
Qed.

(** The edit of a message in C1. *)
Lemma only_deletions_reach_the_event_store_witness :
  forallb no_event_lookup
    (trace_of (handle Examples.world0 (Examples.edit_event None) "T1"
                      Examples.ok_response Examples.store0))
  = true.
Proof.
  apply (only_deletions_reach_the_event_store
           Examples.world0 (Examples.edit_event None) "T1"
           Examples.ok_response Examples.store0).
  reflexivity.
Defined.

(** ** The received event, once more *)

(** The store is as it was. *)
Definition store_kept : Invariant.
Proof.
  refine {| holds := fun s s' _ => s' = s |}.
  - intros s. reflexivity.
  - intros s1 s2 s3 _ _ H1 H2. congruence.
Defined.

Lemma forward_step_store w room event msg teamId :
  keeps store_kept (forward_step w room event msg teamId).
Proof. unfold forward_step, file_share_step. frame_all. Qed.

(** Around the handler of a message, [handle] writes nothing. *)
Lemma handle_message_store w event teamId response s :
  response HTTP_OK (Some "OK") = Ok tt ->
  ev_type event = "message" ->
  store_of (handle w event teamId response s)
  = store_of (handleMessageEvent w event teamId s).
Proof.
  intros Hack Hty.
  rewrite (handle_of_dispatch w event teamId response s Hack).
  rewrite (dispatch_message w event teamId s Hty).
  destruct (handleMessageEvent w event teamId s) as [[[[] | ex] s1] t1];
    reflexivity.
Qed.

(** An edit that reaches line 196 leaves the answer of the mention resolver
    in the stored previous message, whoever made the edit and whatever
    happens to the edit afterwards. *)
Lemma previous_text_is_resolved
    w event teamId s room client message p t1 :
  ev_subtype event = Some "message_changed" ->
  ev_message event = Some message ->
  ev_previous_message event = Some p ->
  past_attachments event = true ->
  w_getRoomBySlackChannelId w (ev_channel event) = Ok (Some room) ->
  SlackClient (st_rooms s room) = Some client ->
  w_doChannelUserReplacements w
    (set_text (set_user_id (message_copy event (st_rooms s room) teamId)
                           (msg_user message))
              (msg_text message))
    (msg_text (st_msgs s p)) client
  = Ok t1 ->
  store_of (handleMessageEvent w event teamId s) = write_text p t1 s.
Proof.
  intros Hsub Hmsg Hprev Hpast Hroom Hclient Ht1.
  rewrite (handleMessageEvent_with_client w event teamId s room client
             Hroom Hclient);
    [| now apply (not_echo event _ "message_changed")
     | now apply (not_topic event "message_changed")].
  cbv zeta.
  rewrite (attachments_step_past w room client
             (message_copy event (st_rooms s room) teamId) teamId s Hpast).
  rewrite (subtype_step_changed w room client
             (message_copy event (st_rooms s room) teamId) s message p
             Hsub Hmsg Hprev).
  rewrite message_changed_step_run. cbv zeta. rewrite Ht1.
  assert (Hforward : forall m,
            store_of
              (let '(r, s3, t3) :=
                 forward_step w room event m teamId (write_text p t1 s) in
               (r, s3,
                counted event ++ [] ++
                  [EDoChannelUserReplacements
                     (set_text
                        (set_user_id
                           (message_copy event (st_rooms s room) teamId)
                           (msg_user message))
                        (msg_text message))
                     (msg_text (st_msgs s p)) client] ++ t3))
            = write_text p t1 s).
  { intro m.
    pose proof (forward_step_store w room event m teamId (write_text p t1 s))
      as Hkept.
    destruct (forward_step w room event m teamId (write_text p t1 s))
      as [[r s3] t3].
    exact Hkept. }
  destruct (msg_bot_id message) as [b |]; [| apply Hforward].
  destruct (strict_eq (Some b) (SlackBotId (st_rooms s room)));
    [reflexivity | apply Hforward].
Qed.



(** ** Incomplete edits behind attachments *)

(** An edit in C1 of which only the envelope arrived, with the attachments
    and the text given. *)
Definition incomplete_edit (attachments : list Attachment)
    (text : option string) : SlackEvent :=
  {| ev_type := "message"; ev_channel := Some "C1"; ev_user := Some "U1";
     ev_bot_id := None; ev_subtype := Some "message_changed";
     ev_text := text; ev_attachments := Some attachments;
     ev_comment := None; ev_message := None; ev_previous_message := None;
     ev_deleted_ts := None; ev_file := None; ev_item := None; ev_id := None;
     ev_name := None; ev_domain := None |}.

(** C10 as it is specified fails: in C1, whose room has a client, an
    incomplete edit with an empty list of attachments and the empty string
    as text is dropped at line 183, and one with an attachment is forwarded
    with the fallback of the attachment as text, not with its own. *)
Lemma incomplete_edit_stops_at_the_attachments :
  ev_message (incomplete_edit [] (Some "")) = None
  /\ SlackClient (st_rooms Examples.store0 0) = Some "client"
  /\ forwards
       (trace_of (handle Examples.world0 (incomplete_edit [] (Some "")) "T1"
                         Examples.ok_response Examples.store0))
     = []
  /\ exists m,
       forwards
         (trace_of
            (handle Examples.world0
                    (incomplete_edit [ {| fallback := Some "see the file" |} ]
                                     (Some "hello @bob"))
                    "T1" Examples.ok_response Examples.store0))
       = [EOnSlackMessage 0 m "T1" None]
       /\ ev_text (base m) = Some "see the file".
Proof.
  split; [reflexivity |]. split; [reflexivity |]. split; [reflexivity |].
  eexists. split; reflexivity.
Qed.
